(** * WordSeer preprocessing: structure extractor and collection processor

    A shallow embedding of [structureextractor.py] (the schema-driven XML
    extractor) and of [app/preprocessor/collectionprocessor.py] (the
    checkpointed pipeline), together with the properties of the written
    specification that concern them.

    Python exceptions are modelled by an error monad, the progress ledger
    by a finite map from keys to strings, and the XML library by an
    interface (a type class) with one small concrete instance on which the
    functions can be run. *)

From Stdlib Require Import ZArith Ascii String DecimalString DecimalZ.
From stdpp Require Import base option list strings gmap sorting.

Local Open Scope string_scope.
Local Open Scope list_scope.
#[local] Set Warnings "-register-all".

(** ** Exceptions *)

Inductive exn : Type :=
| KeyError (key : string)
| NameError
| AttributeError
| TypeError
| ValueError
| IndexError
| ExternalError (who : string).

Inductive result (A : Type) : Type :=
| Ok (a : A)
| Raise (e : exn).
Arguments Ok {A} a.
Arguments Raise {A} e.

#[global] Instance result_ret : MRet result := fun _ a => Ok a.
#[global] Instance result_bind : MBind result := fun _ _ f m =>
  match m with
  | Ok a => f a
  | Raise e => Raise e
  end.

Definition is_ok {A} (r : result A) : bool :=
  match r with Ok _ => true | Raise _ => false end.

(** A [for] loop whose body may raise: the accumulator is threaded from
    left to right and the first exception leaves the loop. *)
Definition foldM {A B} (f : B → A → result B) : list A → B → result B :=
  fix go l acc :=
    match l with
    | [] => Ok acc
    | x :: l' =>
        match f acc x with
        | Ok acc' => go l' acc'
        | Raise e => Raise e
        end
    end.

(** ** Python strings

    Characters are code points below 256. *)
Module Py.

(** [unicode.isspace] on the code points below 256. *)
Definition is_space (c : ascii) : bool :=
  let n := nat_of_ascii c in
  (((9 <=? n) && (n <=? 13)) || ((28 <=? n) && (n <=? 32))
   || (n =? 133) || (n =? 160))%nat.

Fixpoint lstrip (s : string) : string :=
  match s with
  | String c s' => if is_space c then lstrip s' else s
  | EmptyString => EmptyString
  end.

Definition rstrip (s : string) : string := String.rev (lstrip (String.rev s)).

(** [s.strip()] *)
Definition strip (s : string) : string := rstrip (lstrip s).

(** Empty, or white space only. *)
Fixpoint blank (s : string) : bool :=
  match s with
  | String c s' => is_space c && blank s'
  | EmptyString => true
  end.

(** [s.lower()], characterwise. *)
Definition lower_char (c : ascii) : ascii :=
  let n := nat_of_ascii c in
  if (((65 <=? n) && (n <=? 90))
      || ((192 <=? n) && (n <=? 222) && negb (n =? 215)))%nat
  then ascii_of_nat (n + 32) else c.

Fixpoint lower (s : string) : string :=
  match s with
  | String c s' => String (lower_char c) (lower s')
  | EmptyString => EmptyString
  end.

(** [sub in s] *)
Fixpoint contains (sub s : string) : bool :=
  String.prefix sub s ||
  match s with
  | String _ s' => contains sub s'
  | EmptyString => false
  end.

(** [s.split(sep)] for a one-character separator: never the empty list. *)
Fixpoint split (sep : ascii) (s : string) : list string :=
  match s with
  | EmptyString => [EmptyString]
  | String c s' =>
      if Ascii.eqb c sep then EmptyString :: split sep s'
      else match split sep s' with
           | w :: ws => String c w :: ws
           | [] => [String c EmptyString]
           end
  end.

(** [s.count(c)] for one character. *)
Fixpoint count (c : ascii) (s : string) : nat :=
  match s with
  | EmptyString => 0
  | String a s' => (if Ascii.eqb a c then 1 else 0) + count c s'
  end.

(** [str(n)] for an integer. *)
Definition str (z : Z) : string := NilZero.string_of_int (Z.to_int z).

(** [int(s)]: surrounding white space, an optional sign, decimal digits. *)
Definition int (s : string) : result Z :=
  let t := strip s in
  let parsed :=
    match t with
    | String "+" r => option_map Decimal.Pos (NilZero.uint_of_string r)
    | _ => NilZero.int_of_string t
    end in
  match parsed with
  | Some d => Ok (Z.of_int d)
  | None => Raise ValueError
  end.

(** The one-character string of a line feed. *)
Definition newline : string := String "010" EmptyString.

(** [s.startswith(c)], [s.endswith(c)] for one character. *)
Definition startswith (c : ascii) (s : string) : bool :=
  match s with String a _ => Ascii.eqb a c | EmptyString => false end.
Definition endswith (c : ascii) (s : string) : bool :=
  startswith c (String.rev s).

(** [s[0]] *)
Definition first_char (s : string) : result ascii :=
  match s with String a _ => Ok a | EmptyString => Raise IndexError end.

(** [s.rfind(c)], with -1 when [c] does not occur. *)
Fixpoint rfind_from (c : ascii) (s : string) (i : Z) (last : Z) : Z :=
  match s with
  | EmptyString => last
  | String a s' => rfind_from c s' (i + 1) (if Ascii.eqb a c then i else last)
  end.
Definition rfind (c : ascii) (s : string) : Z := rfind_from c s 0 (-1).

(** [s[i:j]] for 0 <= i. *)
Definition slice (i j : Z) (s : string) : string :=
  String.substring (Z.to_nat i) (Z.to_nat (j - i)) s.

Fixpoint all_char (c : ascii) (s : string) : bool :=
  match s with
  | EmptyString => true
  | String a s' => Ascii.eqb a c && all_char c s'
  end.

(** [os.path.splitext(p)[1]] (posixpath): the extension starts at the
    last dot, unless that dot is not after the last separator or only
    dots come before it in the file name. *)
Definition splitext_ext (p : string) : string :=
  let sepIndex := rfind "/" p in
  let dotIndex := rfind "." p in
  if (sepIndex <? dotIndex)%Z then
    if all_char "." (slice (sepIndex + 1) dotIndex p) then EmptyString
    else slice dotIndex (Z.of_nat (String.length p)) p
  else EmptyString.

(** [os.path.join(a, b)] (posixpath). *)
Definition path_join (a b : string) : string :=
  if startswith "/" b then b
  else if (String.eqb a EmptyString || endswith "/" a)%bool then a +:+ b
  else a +:+ "/" +:+ b.

End Py.

(** ** The structure grammar (the JSON file)

    A key of a JSON object is absent, or holds [null], or holds a value:
    the extractor looks keys up with [d[k]] and then tests the result
    against [None], so the three cases are kept apart. *)

Inductive field (A : Type) : Type :=
| Absent
| Null
| Val (a : A).
Arguments Absent {A}.
Arguments Null {A}.
Arguments Val {A} a.

(** [d[k]]: a dictionary lookup raises [KeyError] on a missing key. *)
Definition getitem {A} (k : string) (f : field A) : result (option A) :=
  match f with
  | Absent => Raise (KeyError k)
  | Null => Ok None
  | Val a => Ok (Some a)
  end.

(** [try: x = body / except NameError: x = handler] *)
Definition try_except_NameError {A} (body : result A) (handler : A) : result A :=
  match body with
  | Raise NameError => Ok handler
  | r => r
  end.

Record MetadataRule : Type := mkMetadataRule {
  m_xpaths : field (list string);
  attr : field string;
  propertyName : field string
}.

Inductive StructureRule : Type := mkStructure {
  structureName : string;
  xpaths : list string;
  metadata : field (list MetadataRule);
  units : field (list StructureRule)
}.

(** ** The extracted tree *)

Record Metadata : Type := mkMetadata {
  value : string;
  property_name : option string;
  specification : MetadataRule
}.

(** [get_sentences] appends one metadata list per matched node, so a
    sentence carries a list of lists. *)
Record Sentence : Type := mkSentence {
  sentence : string;
  s_metadata : list (list Metadata)
}.

Inductive Unit : Type := mkUnit {
  u_metadata : list Metadata;
  u_units : list Unit;
  u_sentences : list Sentence;
  u_name : string
}.

Record Document : Type := mkDocument {
  d_metadata : list Metadata;
  d_name : string;
  d_sentences : list Sentence;
  d_title : string;
  d_units : list Unit
}.

(** ** The XML library, as the extractor uses it

    [get_nodes_from_xpath] returns either the node it was given or the
    list that [node.xpath] returned; both flow into the same variables. *)
Inductive etree (node : Type) : Type :=
| Element (n : node)
| NodeList (l : list node).
Arguments Element {node} n.
Arguments NodeList {node} l.

Class XmlNode (node : Type) : Type := {
  (** [n.xpath(pattern)] *)
  xpath : node → string → result (list node);
  (** [for c in n]: iterating an element yields its children *)
  iter_node : node → list node;
  (** [x.children] *)
  children : etree node → result (list node);
  (** [n.get(attribute)], [None] when the attribute is missing *)
  get : node → string → option string;
  (** [n.text] *)
  text : node → option string;
  (** [etree.tostring(x, method="text")] *)
  tostring_text : etree node → result string
}.

(** [for n in x] *)
Definition iter_etree `{XmlNode node} (x : etree node) : list node :=
  match x with
  | Element n => iter_node n
  | NodeList l => l
  end.

(** [o.m(...)] on a value that may be [None]. *)
Definition not_none {A} (o : option A) : result A :=
  match o with
  | Some a => Ok a
  | None => Raise AttributeError
  end.

Section StructureExtractor.

Context {node : Type} `{XmlNode node}.

(** [self.t.tokenize], the external sentence tokenizer. *)
Variable tokenize : string → result (list Sentence).

(** [get_nodes_from_xpath(xpath, nodes)] *)
Definition get_nodes_from_xpath (xp : string) (nodes : node)
  : result (etree node) :=
  if (String.length (Py.strip xp) =? 0)%nat then Ok (Element nodes)
  else l ← xpath nodes xp; Ok (NodeList l).

(** [get_xpath_text(xpath_pattern, node)].  The loop variable is not
    used in the body: [etree.tostring] is given [nodes]. *)
Definition get_xpath_text (xpath_pattern : string) (n : node)
  : result (list string) :=
  if (String.length (Py.strip xpath_pattern) =? 0)%nat then
    s ← tostring_text (Element n); Ok [s]
  else
    nodes ← xpath n xpath_pattern;
    foldM (fun values _ =>
             s ← tostring_text (NodeList nodes);
             let value := Py.strip s in
             if (0 <? String.length value)%nat then Ok (values ++ [value])
             else Ok values)
          nodes [].

(** [get_xpath_attribute(xpath_pattern, attribute, node)] *)
Definition get_xpath_attribute (xpath_pattern attribute : string) (n : node)
  : result (list string) :=
  if (String.length (Py.strip xpath_pattern) =? 0)%nat then
    a ← not_none (get n attribute);
    let vals := Py.split " " a in
    if (0 <? length vals)%nat then Ok vals else Ok []
  else
    nodes ← xpath n xpath_pattern;
    foldM (fun values n' =>
             a ← not_none (get n' attribute);
             let vals := Py.split " " a in
             if (0 <? length vals)%nat then Ok (values ++ vals)
             else Ok values)
          nodes [].

(** [get_metadata(metadata_structure, node)] *)
Definition get_metadata (metadata_structure : option (list MetadataRule))
    (n : node) : result (list Metadata) :=
  match metadata_structure with
  | None => Ok []
  | Some specs =>
      foldM (fun md spec =>
        xps ← try_except_NameError (getitem "xpaths" (m_xpaths spec)) None;
        attribute ← try_except_NameError (getitem "attr" (attr spec)) None;
        match xps with
        | None => Ok md
        | Some xps =>
            foldM (fun md xp =>
              extracted ←
                match attribute with
                | Some a => get_xpath_attribute xp a n
                | None => get_xpath_text xp n
                end;
              foldM (fun md val =>
                       pn ← getitem "propertyName" (propertyName spec);
                       Ok (md ++ [mkMetadata val pn spec]))
                    extracted md)
              xps md
        end)
        specs []
  end.

(** [get_sentences(self, structure, parent_node, tokenize)].  Every
    sentence is given the one list [sentence_metadata]; nothing changes
    that list afterwards, so its value stands for it. *)
Definition get_sentences (structure : StructureRule) (parent_node : node)
    (tok : bool) : result (list Sentence) :=
  let unit_xpaths := xpaths structure in
  metadata_structure ←
    try_except_NameError (getitem "metadata" (metadata structure)) None;
  acc ← foldM (fun acc xp =>
           sentence_nodes ← get_nodes_from_xpath xp parent_node;
           foldM (fun '(sentence_text, sentence_metadata) sentence_node =>
                    t ← not_none (text sentence_node);
                    m ← get_metadata metadata_structure sentence_node;
                    Ok (sentence_text +:+ Py.strip t +:+ Py.newline,
                        sentence_metadata ++ [m]))
                 (iter_etree sentence_nodes) acc)
         unit_xpaths (EmptyString, []);
  let '(sentence_text, sentence_metadata) := acc in
  if tok then
    sents ← tokenize sentence_text;
    foldM (fun sentences s =>
             let s := mkSentence (sentence s) sentence_metadata in
             (* string.split(" ", s.sentence): the separator is the
                sentence, and an empty separator is refused *)
             if String.eqb (sentence s) EmptyString then Raise ValueError
             else Ok (sentences ++ [s]))
          sents []
  else
    Ok [mkSentence sentence_text sentence_metadata].

(** [extract_unit_information(self, structure, parent_node)].  The lookup
    of ["units"] and its [NameError] handler are written as one match on
    the key, so that the recursion on the child rules is structural: an
    absent key raises [KeyError], which the handler lets through. *)
Fixpoint extract_unit_information (structure : StructureRule)
    (parent_node : node) {struct structure} : result (list Unit) :=
  let unit_xpaths := xpaths structure in
  foldM (fun units_acc xp =>
    nodes ← get_nodes_from_xpath xp parent_node;
    let struc_name := structureName structure in
    cs ← children nodes;
    foldM (fun units_acc n =>
      metadata_structure ←
        try_except_NameError (getitem "metadata" (metadata structure)) None;
      unit_metadata ← get_metadata metadata_structure n;
      cu ← match units structure with
           | Absent => Raise (KeyError "units")
           | Null => Ok ([], [])
           | Val child_unit_structures =>
               foldM (fun '(chn, sents) child_structure =>
                 let child_type := structureName child_structure in
                 if Py.contains "sentence" child_type then
                   child_units ←
                     extract_unit_information child_structure n;
                   Ok (chn ++ child_units, sents)
                 else
                   sents' ← get_sentences child_structure n true;
                   Ok (chn, sents'))
                 child_unit_structures ([], [])
           end;
      let '(chn, sents) := cu in
      Ok (units_acc ++ [mkUnit unit_metadata chn sents struc_name]))
      cs units_acc)
    unit_xpaths [].

(** [extract(self, file)], with the rule file already loaded into
    [document_structure].  [parse] stands for opening the file called
    [file.name] and parsing it with the XML library; what it returns is
    handed to [extract_unit_information] as it is. *)
Definition extract (parse : string → result node)
    (document_structure : StructureRule) (file_name : string)
  : result (list Document) :=
  doc ← parse file_name;
  us ← extract_unit_information document_structure doc;
  Ok (map (fun u => mkDocument (u_metadata u) "document" (u_sentences u)
                               (u_name u) (u_units u)) us).

End StructureExtractor.

(** ** A concrete XML tree

    Elements with a name, attributes, leading text and children; enough
    of the library to run the extractor on small documents.  A name is
    the only path expression it evaluates: [p] selects the children
    called [p].  Serialising a list is refused, as is asking a list for
    its [children]. *)

Inductive Tag : Type := mkTag {
  tag_name : string;
  attrib : list (string * string);
  tag_text : option string;
  tag_children : list Tag
}.

Fixpoint assoc (k : string) (l : list (string * string)) : option string :=
  match l with
  | [] => None
  | (k', v) :: l' => if String.eqb k k' then Some v else assoc k l'
  end.

Fixpoint text_content (t : Tag) : string :=
  match t with
  | mkTag _ _ txt cs =>
      default EmptyString txt +:+
      (fix go (l : list Tag) : string :=
         match l with
         | [] => EmptyString
         | c :: l' => text_content c +:+ go l'
         end) cs
  end.

#[global] Instance Tag_XmlNode : XmlNode Tag := {|
  xpath n p := Ok (List.filter (fun c => String.eqb (tag_name c) p) (tag_children n));
  iter_node n := tag_children n;
  children x :=
    match x with
    | Element n => Ok (tag_children n)
    | NodeList _ => Raise AttributeError
    end;
  get n a := assoc a (attrib n);
  text n := tag_text n;
  tostring_text x :=
    match x with
    | Element n => Ok (text_content n)
    | NodeList _ => Raise TypeError
    end
|}.

(** A tokenizer to run examples with: one sentence per non-empty line. *)
Definition line_tokenizer (s : string) : result (list Sentence) :=
  Ok (map (fun l => mkSentence l [])
          (List.filter (fun l => negb (String.eqb l EmptyString))
                       (Py.split "010" s))).

(** ** The progress ledger *)

Module Logger.

(** The two modes the sources name: [logger.REPLACE] and
    [logger.UPDATE]. *)
Inductive mode : Type := REPLACE | UPDATE.

(** Modelled from the spec: [logger.get] of the module
    [app/preprocessor/logger.py], which is not among the sources; the
    stored string, or the empty string for a key never written. *)
Definition get (l : gmap string string) (key : string) : string :=
  default EmptyString (l !! key).

(** Modelled from the spec: [logger.log] of the same absent module.
    With REPLACE, the mode the sources pass for the stage flags and for
    [latest_parsed_document_id], the value is stored verbatim over the
    one before.  With UPDATE, the mode the sources pass for
    [text_and_metadata_recorded] and for no other key, the value is
    added to the stored string as one more completion marker, the
    token [[value]] that the stage looks for when it runs again; this
    is the mode the specification describes under the name APPEND. *)
Definition log (l : gmap string string) (key val : string) (m : mode)
  : gmap string string :=
  match m with
  | REPLACE => <[key := val]> l
  | UPDATE => <[key := get l key +:+ "[" +:+ val +:+ "]"]> l
  end.

End Logger.

(** ** The collection processor *)

(** What the processor asks of its collaborators, in the order asked. *)
Inductive event : Type :=
| EReset
| EExtract (path : string)
| EParse (id : Z)
| ECount.

Record world : Type := mkWorld {
  ledger : gmap string string;
  trace : list event
}.

(** The collaborators of one run.  They may raise, and they leave the
    ledger alone. *)
Record Env : Type := mkEnv {
  GRAMMATICAL_PROCESSING : bool;
  WORD_TO_WORD_SIMILARITY : bool;
  PART_OF_SPEECH_TAGGING : bool;
  (** what [database.reset()] does to the stored ledger *)
  database_reset : gmap string string → gmap string string;
  (** [os.listdir] *)
  listdir : string → result (list string);
  (** [StructureExtractor(str_proc, docstruc_filename)] *)
  StructureExtractor_init : string → result unit;
  (** [extractor.extract(path)]; the documents it returns are dropped *)
  extractor_extract : string → string → result unit;
  (** the ids of [Document.query.all()], in the order returned *)
  Document_query_all : list Z;
  (** [DocumentParser(str_proc)] *)
  DocumentParser_init : result unit;
  (** [document_parser.parse_document(document)] *)
  parse_document : Z → result unit;
  (** [counter.count()] *)
  counter_count : result unit
}.

(** State and exceptions: an exception keeps the world reached so far. *)
Definition M (A : Type) : Type := world → world * result A.

#[global] Instance M_ret : MRet M := fun _ a w => (w, Ok a).
#[global] Instance M_bind : MBind M := fun _ _ f m w =>
  match m w with
  | (w', Ok a) => f a w'
  | (w', Raise e) => (w', Raise e)
  end.

Definition lift {A} (r : result A) : M A := fun w => (w, r).

Definition call {A} (e : event) (r : result A) : M A :=
  fun w => (mkWorld (ledger w) (trace w ++ [e]), r).

Definition logger_get (key : string) : M string :=
  fun w => (w, Ok (Logger.get (ledger w) key)).

Definition logger_log (key val : string) (m : Logger.mode) : M unit :=
  fun w => (mkWorld (Logger.log (ledger w) key val m) (trace w), Ok tt).

Definition forM {A B} (f : B → A → M B) : list A → B → M B :=
  fix go l acc :=
    match l with
    | [] => mret acc
    | x :: l' => acc' ← f acc x; go l' acc'
    end.

Definition when (b : bool) (m : M unit) : M unit :=
  if b then m else mret tt.

Section CollectionProcessor.

Variable env : Env.

(** The files of the directory listing with the extension asked for. *)
Definition matching (filename_extension : string) (names : list string)
  : list string :=
  List.filter (fun filename =>
                 String.eqb (Py.lower (Py.splitext_ext filename))
                            (Py.lower filename_extension))
              names.

(** One round of the loop over [contents]: the marker test comes first,
    and [filename[0]] is looked at only when the marker is not found. *)
Definition record_file (collection_dir docstruc_filename : string)
    (num_files_done : Z) (filename : string) : M Z :=
  recorded ← logger_get "text_and_metadata_recorded";
  todo ← (if Py.contains ("[" +:+ Py.str num_files_done +:+ "]") recorded
          then mret false
          else c ← lift (Py.first_char filename);
               mret (negb (Ascii.eqb c ".")));
  when todo (
    logger_log "finished_recording_text_and_metadata" "false" Logger.REPLACE;;
    let path := Py.path_join collection_dir filename in
    call (EExtract path) (extractor_extract env docstruc_filename path);;
    logger_log "text_and_metadata_recorded" (Py.str num_files_done)
               Logger.UPDATE);;
  mret (num_files_done + 1)%Z.

(** [extract_record_metadata(self, collection_dir, docstruc_filename,
    filename_extension)]; the calls to the Python logging module are left
    out. *)
Definition extract_record_metadata
    (collection_dir docstruc_filename filename_extension : string) : M unit :=
  lift (StructureExtractor_init env docstruc_filename);;
  names ← lift (listdir env collection_dir);
  let contents := matching filename_extension names in
  forM (record_file collection_dir docstruc_filename) contents 1%Z;;
  logger_log "finished_recording_text_and_metadata" "true" Logger.REPLACE.

(** One round of the loop over [documents]. *)
Definition parse_one (latest_id : Z) (_ : unit) (id : Z) : M unit :=
  when (latest_id <? id)%Z (
    call (EParse id) (parse_document env id);;
    logger_log "finished_grammatical_processing" "false" Logger.REPLACE;;
    logger_log "latest_parsed_document_id" (Py.str id) Logger.REPLACE).

(** [parse_documents(self)].  The marker is read and converted once,
    before the loop. *)
Definition parse_documents : M unit :=
  let documents := Document_query_all env in
  lift (DocumentParser_init env);;
  latest ← logger_get "latest_parsed_document_id";
  let latest := if (String.length latest =? 0)%nat then "0" else latest in
  latest_id ← lift (Py.int latest);
  forM (parse_one latest_id) documents tt;;
  call ECount (counter_count env).

(** [process(self, collection_dir, docstruc_filename, filename_extension,
    start_from_scratch)].  The first and the last test look for "true" in
    the stored value as it is, the other three in its lower-case form. *)
Definition process
    (collection_dir docstruc_filename filename_extension : string)
    (start_from_scratch : bool) : M unit :=
  when start_from_scratch
    (fun w => (mkWorld (database_reset env (ledger w)) (trace w ++ [EReset]),
               Ok tt));;
  f1 ← logger_get "finished_recording_text_and_metadata";
  when (negb (Py.contains "true" f1))
    (extract_record_metadata collection_dir docstruc_filename
                             filename_extension);;
  f2 ← logger_get "finished_grammatical_processing";
  when ((GRAMMATICAL_PROCESSING env
         || (WORD_TO_WORD_SIMILARITY env && PART_OF_SPEECH_TAGGING env))
        && negb (Py.contains "true" (Py.lower f2)))
    parse_documents;;
  f3 ← logger_get "word_counts_done";
  when (negb (Py.contains "true" (Py.lower f3)))
    (logger_log "word_counts_done" "true" Logger.REPLACE);;
  f4 ← logger_get "tfidf_done";
  when (negb (Py.contains "true" (Py.lower f4))) (mret tt);;
  f5 ← logger_get "word_similarity_calculations_done";
  when (WORD_TO_WORD_SIMILARITY env && negb (Py.contains "true" f5))
    (mret tt).

End CollectionProcessor.

(** ** The model mixin ([app/models/base.py]) *)

Module Base.

Definition is_upper (c : ascii) : bool :=
  let n := nat_of_ascii c in ((65 <=? n) && (n <=? 90))%nat.
Definition is_lower (c : ascii) : bool :=
  let n := nat_of_ascii c in ((97 <=? n) && (n <=? 122))%nat.
Definition is_digit (c : ascii) : bool :=
  let n := nat_of_ascii c in ((48 <=? n) && (n <=? 57))%nat.
Definition not_newline (c : ascii) : bool := negb (Ascii.eqb c "010").

(** [re.sub('(.)([A-Z][a-z]+)', r'\1_\2', s)].  A match is a character
    that is not a line feed, a capital, and the longest run of small
    letters after it, of which there is at least one; matches are looked
    for from left to right and do not overlap.  [in_run] holds while the
    small letters of the match just found are copied. *)
Fixpoint sub_word (in_run : bool) (s : string) : string :=
  match s with
  | EmptyString => EmptyString
  | String c s' =>
      if in_run && is_lower c then String c (sub_word true s')
      else
        match s' with
        | String u (String l _ as t) =>
            if not_newline c && is_upper u && is_lower l
            then String c (String "_" (String u (sub_word true t)))
            else String c (sub_word false s')
        | _ => String c (sub_word false s')
        end
  end.

(** [re.sub('([a-z0-9])([A-Z])', r'\1_\2', s)] *)
Fixpoint sub_hump (s : string) : string :=
  match s with
  | String a (String u r as t) =>
      if (is_lower a || is_digit a) && is_upper u
      then String a (String "_" (String u (sub_hump r)))
      else String a (sub_hump t)
  | _ => s
  end.

(** [__tablename__], from the name of the class. *)
Definition tablename (class_name : string) : string :=
  let s1 := sub_word false class_name in
  Py.lower (sub_hump s1).

(** [find_or_create] over a table of rows.  [matches kwargs] is the
    filter that [filter_by] makes of the keyword arguments and
    [make kwargs table] the row that [cls] builds from them, once saved
    to [table].  [one()] raises
    [NoResultFound] on no row and [MultipleResultsFound] on several; the
    method answers the row, or [False] ([None] here) on several. *)
Definition find_or_create {kw row : Type} (matches : kw → row → bool)
    (make : kw → list row → row) (kwargs : kw) (table : list row)
  : list row * option row :=
  match List.filter (matches kwargs) table with
  | [] => let new_record := make kwargs table in
          (table ++ [new_record], Some new_record)
  | [found] => (table, Some found)
  | _ :: _ :: _ => (table, None)
  end.

(** [__repr__], over the items of [self.__dict__] in their order, each
    value already turned into a string by [str]. *)
Definition repr (class_name : string) (items : list (string * string))
  : result string :=
  repr_str ←
    foldM (fun repr_str '(k, v) =>
             c ← Py.first_char k;
             if negb (Ascii.eqb c "_")
             then Ok (repr_str +:+ " | " +:+ k +:+ ": " +:+ v)
             else Ok repr_str)
          items ("<" +:+ class_name +:+ ":");
  Ok (repr_str +:+ " |>").

End Base.

(** The characters of [s] but the underscores. *)
Fixpoint without_underscores (s : string) : string :=
  match s with
  | EmptyString => EmptyString
  | String c s' =>
      if Ascii.eqb c "_" then without_underscores s'
      else String c (without_underscores s')
  end.

Fixpoint no_capital (s : string) : bool :=
  match s with
  | EmptyString => true
  | String c s' => negb (Base.is_upper c) && no_capital s'
  end.

(** The items of an object that [__repr__] shows. *)
Definition public (item : string * string) : bool :=
  negb (Py.startswith "_" item.1).

(** ** Example inputs *)

Definition leaf (name : string) (attrs : list (string * string))
    (txt : string) : Tag :=
  mkTag name attrs (Some txt) [].

(** [<root><doc><p>Hello world.</p></doc></root>] *)
Definition hello_doc : Tag :=
  mkTag "root" [] None [mkTag "doc" [] None [leaf "p" [] "Hello world."]].

Definition rule_leaf (name : string) (xps : list string) : StructureRule :=
  mkStructure name xps Null Null.

(** A parent rule with one child rule called [sentence]. *)
Definition rule_with_sentence_child : StructureRule :=
  mkStructure "doc" [""] Null (Val [rule_leaf "sentence" [""]]).

(** A parent rule with one child rule called [paragraph]. *)
Definition rule_with_paragraph_child : StructureRule :=
  mkStructure "doc" [""] Null (Val [rule_leaf "paragraph" [""]]).

(** A rule without the optional keys. *)
Definition rule_bare : StructureRule :=
  mkStructure "doc" [""] Absent Absent.

(** [<r><a id="x y">one</a><a>two</a></r>] *)
Definition two_anchors : Tag :=
  mkTag "r" [] None [leaf "a" [("id", "x y")] "one"; leaf "a" [] "two"].

Definition rule_attr : MetadataRule :=
  mkMetadataRule (Val ["a"]) (Val "id") (Val "ident").
Definition rule_text : MetadataRule :=
  mkMetadataRule (Val ["a"]) Null (Val "body").
Definition rule_text_no_attr : MetadataRule :=
  mkMetadataRule (Val ["a"]) Absent (Val "body").

(** [<r><a id="x y">one</a><a id="z">two</a></r>] *)
Definition two_ids : Tag :=
  mkTag "r" [] None [leaf "a" [("id", "x y")] "one"; leaf "a" [("id", "z")] "two"].

(** Sentence rules: one without the [metadata] key and without paths, one
    whose only path selects nothing in the examples. *)
Definition rule_no_metadata : StructureRule :=
  mkStructure "sentence" [] Absent Null.
Definition rule_no_match : StructureRule :=
  mkStructure "sentence" ["zzz"] Null Null.

(** A rule with [metadata] but without the [units] key. *)
Definition rule_no_units : StructureRule :=
  mkStructure "doc" [""] Null Absent.

(** A run in which every collaborator succeeds, over a fixed directory
    listing and a fixed list of stored document ids. *)
Definition quiet_env (names : list string) (ids : list Z) : Env := {|
  GRAMMATICAL_PROCESSING := true;
  WORD_TO_WORD_SIMILARITY := true;
  PART_OF_SPEECH_TAGGING := true;
  database_reset := fun _ => ∅;
  listdir := fun _ => Ok names;
  StructureExtractor_init := fun _ => Ok tt;
  extractor_extract := fun _ _ => Ok tt;
  Document_query_all := ids;
  DocumentParser_init := Ok tt;
  parse_document := fun _ => Ok tt;
  counter_count := Ok tt
|}.

Definition three_files : list string := ["a.xml"; "notes.txt"; "b.XML"; "c.xml"].

Definition fresh_world : world := mkWorld ∅ [].

(** The ledger of a run that was interrupted after two files. *)
Definition two_done : world :=
  mkWorld {[ "text_and_metadata_recorded" := "[1][2]" ]} [].

(** The ledger of a finished run. *)
Definition all_done : world :=
  mkWorld (<["finished_recording_text_and_metadata" := "true"]>
           (<["finished_grammatical_processing" := "true"]>
           (<["word_counts_done" := "true"]>
           (<["tfidf_done" := "true"]>
           (<["word_similarity_calculations_done" := "true"]> ∅)))))
          [EExtract "old"].

(** The paths handed to [extractor.extract] in a trace. *)
Definition extractions (t : list event) : list string :=
  omap (fun e => match e with EExtract p => Some p | _ => None end) t.

(** The two ledger writes that follow the parsing of one document. *)
Definition advance (l : gmap string string) (id : Z) : gmap string string :=
  Logger.log
    (Logger.log l "finished_grammatical_processing" "false" Logger.REPLACE)
    "latest_parsed_document_id" (Py.str id) Logger.REPLACE.

(** No white space and no plus sign among the characters of [s]. *)
Fixpoint plain (s : string) : bool :=
  match s with
  | EmptyString => true
  | String c s' =>
      negb (Py.is_space c) && negb (Ascii.eqb c "+") && plain s'
  end.

(** [<doc><p>Hello world.</p></doc>] *)
Definition hello_body : Tag :=
  mkTag "doc" [] None [leaf "p" [] "Hello world."].

(** A ledger in which the first three stages are marked, in capitals
    where the pipeline lowers the value, and the last two are not. *)
Definition counts_done : world :=
  mkWorld (<["finished_recording_text_and_metadata" := "true"]>
           (<["finished_grammatical_processing" := "TRUE"]>
           (<["word_counts_done" := "True"]> ∅)))
          [].

(** Collaborators that all succeed, with the three switches off. *)
Definition parsing_off_env (names : list string) (ids : list Z) : Env := {|
  GRAMMATICAL_PROCESSING := false;
  WORD_TO_WORD_SIMILARITY := false;
  PART_OF_SPEECH_TAGGING := false;
  database_reset := fun _ => ∅;
  listdir := fun _ => Ok names;
  StructureExtractor_init := fun _ => Ok tt;
  extractor_extract := fun _ _ => Ok tt;
  Document_query_all := ids;
  DocumentParser_init := Ok tt;
  parse_document := fun _ => Ok tt;
  counter_count := Ok tt
|}.

(** A table of named rows with ids, looked up by name. *)
Definition name_is (name : string) (r : string * nat) : bool :=
  String.eqb name r.1.
Definition new_named (name : string) (table : list (string * nat))
  : string * nat :=
  (name, S (length table)).

(** A file name the loop does not skip as hidden. *)
Definition visible (filename : string) : bool :=
  match filename with
  | String c _ => negb (Ascii.eqb c ".")
  | EmptyString => false
  end.



(** [Tag] as a library without [children]: paths, attributes and text
    as in [Tag_XmlNode], and an AttributeError for [children] whatever
    it is asked of, as with an XML library whose elements and result
    lists have no such attribute. *)
Definition Tag_without_children : XmlNode Tag := {|
  xpath := fun n p =>
    Ok (List.filter (fun c => String.eqb (tag_name c) p) (tag_children n));
  iter_node := fun n => tag_children n;
  children := fun _ => Raise AttributeError;
  get := fun n a => assoc a (attrib n);
  text := fun n => tag_text n;
  tostring_text := fun x =>
    match x with
    | Element n => Ok (text_content n)
    | NodeList _ => Raise TypeError
    end
|}.

(** ** Properties *)

(** *** Loops and strings *)

Lemma lstrip_blank s : Py.blank s = true → Py.lstrip s = EmptyString.
Proof.
  induction s as [|c s IH]; simpl; [done|].
  intros [Hc Hs]%andb_prop. rewrite Hc. auto.
Qed.

Lemma strip_blank s : Py.blank s = true → Py.strip s = EmptyString.
Proof.
  intros Hs. unfold Py.strip. rewrite (lstrip_blank s Hs). reflexivity.
Qed.

Lemma split_not_nil sep s : Py.split sep s ≠ [].
Proof.
  destruct s as [|c s]; simpl; [done|].
  destruct (Ascii.eqb c sep); [done|]. by destruct (Py.split sep s).
Qed.

Lemma split_length sep s : (0 <? length (Py.split sep s))%nat = true.
Proof.
  pose proof (split_not_nil sep s). by destruct (Py.split sep s).
Qed.

Lemma strip_nonblank_length xp :
  Py.strip xp ≠ EmptyString → (String.length (Py.strip xp) =? 0)%nat = false.
Proof. by destruct (Py.strip xp). Qed.

(** *** The extractor *)

Section ExtractorFacts.

Context {node : Type} `{XmlNode node}.
Variable tokenize : string → result (list Sentence).

(** C9. An empty or white-space-only path is never given to the XPath
    engine: resolving it against a node returns that node itself, and the
    two metadata readers take their single value from that node. *)
Theorem blank_xpath_is_the_node (xp a : string) (n : node) :
  Py.blank xp = true →
  get_nodes_from_xpath xp n = Ok (Element n)
  ∧ get_xpath_text xp n = (s ← tostring_text (Element n); Ok [s])
  ∧ get_xpath_attribute xp a n =
      (v ← not_none (get n a); Ok (Py.split " " v)).
Proof.
  intros Hb. apply strip_blank in Hb.
  unfold get_nodes_from_xpath, get_xpath_text, get_xpath_attribute.
  rewrite Hb. simpl. repeat split.
  destruct (get n a) as [v|]; simpl; [|done].
  by rewrite split_length.
Qed.

(** The text and metadata gathered by [get_sentences] stay as they are
    over paths that resolve to no node. *)
Lemma gather_no_match (md : option (list MetadataRule)) (parent : node)
    (xps : list string) acc :
  Forall (fun xp => ∃ x, get_nodes_from_xpath xp parent = Ok x
                         ∧ iter_etree x = []) xps →
  foldM (fun acc xp =>
           sentence_nodes ← get_nodes_from_xpath xp parent;
           foldM (fun '(sentence_text, sentence_metadata) sentence_node =>
                    t ← not_none (text sentence_node);
                    m ← get_metadata md sentence_node;
                    Ok (sentence_text +:+ Py.strip t +:+ Py.newline,
                        sentence_metadata ++ [m]))
                 (iter_etree sentence_nodes) acc)
        xps acc = Ok acc.
Proof.
  induction 1 as [|xp xps (x & Hx & Hi) _ IH]; simpl; [done|].
  rewrite Hx. simpl. rewrite Hi. simpl. apply IH.
Qed.

(** When the rule has its [metadata] key (holding null or a list) and
    every path of the rule resolves to no node, sentence extraction
    without tokenizing returns exactly one sentence, with the empty text
    and no metadata. *)
Lemma no_match_one_empty_sentence (structure : StructureRule)
    (parent : node) :
  metadata structure ≠ Absent →
  Forall (fun xp => ∃ x, get_nodes_from_xpath xp parent = Ok x
                         ∧ iter_etree x = []) (xpaths structure) →
  get_sentences tokenize structure parent false
  = Ok [mkSentence EmptyString []].
Proof.
  intros Hmd Hno. unfold get_sentences.
  destruct (metadata structure) as [| |mds] eqn:E; [done| |];
    cbn [getitem try_except_NameError];
    unfold mbind at 1; unfold result_bind at 1;
    by rewrite gather_no_match.
Qed.

(** A rule without the [metadata] key makes sentence extraction raise
    [KeyError], whatever the node, the paths and the flag. *)
Lemma get_sentences_without_metadata (name : string) (xps : list string)
    (us : field (list StructureRule)) (parent : node) (tok : bool) :
  get_sentences tokenize (mkStructure name xps Absent us) parent tok
  = Raise (KeyError "metadata").
Proof. reflexivity. Qed.

(** C2. A missing optional key is not read as "no rules": the handler
    around the lookup is for [NameError], and the [KeyError] of the
    lookup passes it.  Sentence extraction raises for every rule without
    [metadata]; unit extraction raises at the first node it visits, for
    a rule without [metadata] and for a rule without [units]. *)
Theorem missing_optional_key_raises (name xp : string) (xps : list string)
    (us : field (list StructureRule)) (parent c : node) (x : etree node)
    (cs : list node) (tok : bool) :
  get_nodes_from_xpath xp parent = Ok x →
  children x = Ok (c :: cs) →
  get_sentences tokenize (mkStructure name xps Absent us) parent tok
  = Raise (KeyError "metadata")
  ∧ extract_unit_information tokenize
      (mkStructure name (xp :: xps) Absent us) parent
    = Raise (KeyError "metadata")
  ∧ extract_unit_information tokenize
      (mkStructure name (xp :: xps) Null Absent) parent
    = Raise (KeyError "units").
Proof.
  intros Hx Hc. split; [apply get_sentences_without_metadata|].
  split; cbn [extract_unit_information xpaths foldM];
    rewrite Hx; unfold mbind at 1; unfold result_bind at 1;
    rewrite Hc; reflexivity.
Qed.

End ExtractorFacts.

Section MetadataFacts.

Context {node : Type} `{XmlNode node}.

(** The loop of [get_xpath_text] serialises the same list at every
    round, so every value it appends is the same one. *)
Lemma text_loop (all ns : list node) (values : list string) :
  foldM (fun values _ =>
           s ← tostring_text (NodeList all);
           let value := Py.strip s in
           if (0 <? String.length value)%nat then Ok (values ++ [value])
           else Ok values)
        ns values
  = match ns with
    | [] => Ok values
    | _ :: _ =>
        s ← tostring_text (NodeList all);
        Ok (values ++ if (0 <? String.length (Py.strip s))%nat
                      then replicate (length ns) (Py.strip s) else [])
    end.
Proof.
  set (f := fun (values : list string) (_ : node) => _).
  assert (Hf : ∀ values x,
             f values x
             = match tostring_text (NodeList all) with
               | Ok s => if (0 <? String.length (Py.strip s))%nat
                         then Ok (values ++ [Py.strip s]) else Ok values
               | Raise e => Raise e
               end) by reflexivity.
  clearbody f. revert values.
  induction ns as [|x ns IH]; intros values; [done|].
  change (foldM f (x :: ns) values)
    with (match f values x with
          | Ok acc' => foldM f ns acc'
          | Raise e => Raise e
          end).
  rewrite Hf. unfold mbind, result_bind.
  destruct (tostring_text (NodeList all)) as [s|e]; [|done].
  destruct (0 <? String.length (Py.strip s))%nat eqn:E; rewrite IH;
    destruct ns as [|y ns]; unfold mbind, result_bind;
    cbn [length replicate]; rewrite ?E, ?app_nil_r, <- ?app_assoc; done.
Qed.

(** C5. For a path that is not blank, the text values come from
    serialising the whole list of matches, once per match: the result is
    an error, or the same string repeated, never one text per node. *)
Theorem text_values_from_whole_match_list (xp : string) (n : node)
    (ns : list node) :
  Py.strip xp ≠ EmptyString →
  xpath n xp = Ok ns →
  get_xpath_text xp n
  = match ns with
    | [] => Ok []
    | _ :: _ =>
        s ← tostring_text (NodeList ns);
        Ok (if (0 <? String.length (Py.strip s))%nat
            then replicate (length ns) (Py.strip s) else [])
    end.
Proof.
  intros Hxp Hns. unfold get_xpath_text.
  rewrite (strip_nonblank_length _ Hxp), Hns.
  unfold mbind at 1. unfold result_bind at 1.
  apply text_loop.
Qed.

Lemma attr_loop (a : string) (ns : list node) (vs values : list string) :
  Forall2 (fun m v => get m a = Some v) ns vs →
  foldM (fun values n' =>
           a ← not_none (get n' a);
           let vals := Py.split " " a in
           if (0 <? length vals)%nat then Ok (values ++ vals)
           else Ok values)
        ns values
  = Ok (values ++ concat (map (Py.split " ") vs)).
Proof.
  intros Hall. revert values.
  induction Hall as [|m v ns vs Hm _ IH]; intros values; simpl.
  - by rewrite app_nil_r.
  - rewrite Hm. simpl. rewrite split_length, IH. by rewrite <- app_assoc.
Qed.

Lemma attr_loop_missing (a : string) (ns : list node) (values : list string) :
  Exists (fun m => get m a = None) ns →
  foldM (fun values n' =>
           a ← not_none (get n' a);
           let vals := Py.split " " a in
           if (0 <? length vals)%nat then Ok (values ++ vals)
           else Ok values)
        ns values
  = Raise AttributeError.
Proof.
  revert values. induction ns as [|m ns IH]; intros values Hex.
  - inversion Hex.
  - simpl. destruct (get m a) as [v|] eqn:Hm; simpl; [|done].
    rewrite split_length. apply IH.
    inversion Hex; subst; [congruence | done].
Qed.

Lemma emit_loop (spec : MetadataRule) (pn : string)
    (extracted : list string) (md : list Metadata) :
  propertyName spec = Val pn →
  foldM (fun md val =>
           pn ← getitem "propertyName" (propertyName spec);
           Ok (md ++ [mkMetadata val pn spec]))
        extracted md
  = Ok (md ++ map (fun v => mkMetadata v (Some pn) spec) extracted).
Proof.
  intros Hpn. rewrite Hpn. cbn [getitem]. revert md.
  induction extracted as [|v vs IH]; intros md.
  - cbn [foldM map]. by rewrite app_nil_r.
  - cbn [foldM map] in *. unfold mbind at 1. unfold result_bind at 1.
    rewrite IH. by rewrite <- app_assoc.
Qed.

(** C6, as amended. For a rule that names an attribute, with one path
    that is not blank: when every matched node carries the attribute,
    one Metadata is produced per space-separated token, node after node;
    when some matched node lacks it, extraction raises [AttributeError]
    and returns no Metadata at all. *)
Theorem attribute_metadata_all_or_error (spec : MetadataRule)
    (xp a pn : string) (n : node) (ns : list node) :
  m_xpaths spec = Val [xp] →
  attr spec = Val a →
  propertyName spec = Val pn →
  Py.strip xp ≠ EmptyString →
  xpath n xp = Ok ns →
  (∀ vs, Forall2 (fun m v => get m a = Some v) ns vs →
         get_metadata (Some [spec]) n
         = Ok (map (fun v => mkMetadata v (Some pn) spec)
                   (concat (map (Py.split " ") vs))))
  ∧ (Exists (fun m => get m a = None) ns →
     get_metadata (Some [spec]) n = Raise AttributeError).
Proof.
  intros Hx Ha Hpn Hxp Hns.
  assert (Hattr : get_xpath_attribute xp a n
                  = foldM (fun values n' =>
                             a ← not_none (get n' a);
                             let vals := Py.split " " a in
                             if (0 <? length vals)%nat then Ok (values ++ vals)
                             else Ok values) ns []).
  { unfold get_xpath_attribute.
    by rewrite (strip_nonblank_length _ Hxp), Hns. }
  split.
  - intros vs Hall. unfold get_metadata. cbn [foldM].
    rewrite Hx, Ha. cbn [getitem try_except_NameError mbind result_bind].
    cbn [foldM]. rewrite Hattr, (attr_loop _ _ _ _ Hall).
    unfold mbind at 1. unfold result_bind at 1. cbn [app].
    by rewrite (emit_loop _ _ _ _ Hpn).
  - intros Hex. unfold get_metadata. cbn [foldM].
    rewrite Hx, Ha. cbn [getitem try_except_NameError mbind result_bind].
    cbn [foldM]. by rewrite Hattr, (attr_loop_missing _ _ _ Hex).
Qed.

End MetadataFacts.

(** A property of the accumulator that every round keeps holds when the
    loop ends normally. *)
Lemma foldM_invariant {A B} (P : B → Prop) (f : B → A → result B)
    (l : list A) (acc r : B) :
  P acc →
  (∀ b a b', a ∈ l → P b → f b a = Ok b' → P b') →
  foldM f l acc = Ok r →
  P r.
Proof.
  revert acc. induction l as [|x l IH]; intros acc Hacc Hstep; simpl.
  - by intros [= <-].
  - destruct (f acc x) as [acc'|e] eqn:E; [|done].
    apply IH.
    + eapply Hstep; [left | done | done].
    + intros b a b' Ha. apply Hstep. by right.
Qed.

Section DispatchFacts.

Context {node : Type} `{XmlNode node}.
Variable tokenize : string → result (list Sentence).

(** The dispatch on the name of a child rule, for every XML library and
    tokenizer: child rules whose names all contain "sentence" leave the
    sentences of every built Unit empty, and child rules whose names
    never contain it leave its nested Units empty. *)
Lemma dispatch_on_sentence_is_swapped (structure : StructureRule)
    (cs : list StructureRule) (parent : node) (us : list Unit) :
  units structure = Val cs →
  extract_unit_information tokenize structure parent = Ok us →
  (Forall (fun c => Py.contains "sentence" (structureName c) = true) cs →
   Forall (fun u => u_sentences u = []) us)
  ∧ (Forall (fun c => Py.contains "sentence" (structureName c) = false) cs →
     Forall (fun u => u_units u = []) us).
Proof.
  intros Hcs Hrun. destruct structure as [name xps md us']. simpl in Hcs.
  subst us'. cbn [extract_unit_information] in Hrun.
  split; intros Hall.
  - revert Hrun. apply foldM_invariant; [constructor|].
    intros b xp b' _ Hb. unfold mbind, result_bind at 1.
    destruct (get_nodes_from_xpath xp parent) as [nodes|]; [|done].
    unfold result_bind at 1. destruct (children nodes) as [ns|]; [|done].
    apply foldM_invariant; [done|].
    intros b1 n b1' _ Hb1. unfold result_bind at 1.
    destruct (try_except_NameError _ _) as [mds|]; [|done].
    unfold result_bind at 1. destruct (get_metadata mds n) as [um|]; [|done].
    unfold result_bind at 1.
    cbn [units structureName].
    match goal with
    | |- context [foldM ?f cs ?a] =>
        destruct (foldM f cs a) as [[chn sents]|] eqn:Hloop; [|done]
    end.
    intros [= <-]. apply Forall_app. split; [done|].
    constructor; [|constructor]. simpl.
    revert Hloop.
    apply (foldM_invariant (fun cu : list Unit * list Sentence => cu.2 = []));
      [done|].
    intros [c1 s1] c [c2 s2] Hc Hs1.
    rewrite Forall_forall in Hall. rewrite (Hall c Hc).
    unfold result_bind.
    destruct (extract_unit_information tokenize c n); [|done].
    by intros [= <- <-].
  - revert Hrun. apply foldM_invariant; [constructor|].
    intros b xp b' _ Hb. unfold mbind, result_bind at 1.
    destruct (get_nodes_from_xpath xp parent) as [nodes|]; [|done].
    unfold result_bind at 1. destruct (children nodes) as [ns|]; [|done].
    apply foldM_invariant; [done|].
    intros b1 n b1' _ Hb1. unfold result_bind at 1.
    destruct (try_except_NameError _ _) as [mds|]; [|done].
    unfold result_bind at 1. destruct (get_metadata mds n) as [um|]; [|done].
    unfold result_bind at 1.
    cbn [units structureName].
    match goal with
    | |- context [foldM ?f cs ?a] =>
        destruct (foldM f cs a) as [[chn sents]|] eqn:Hloop; [|done]
    end.
    intros [= <-]. apply Forall_app. split; [done|].
    constructor; [|constructor]. simpl.
    revert Hloop.
    apply (foldM_invariant (fun cu : list Unit * list Sentence => cu.1 = []));
      [done|].
    intros [c1 s1] c [c2 s2] Hc Hs1.
    rewrite Forall_forall in Hall. rewrite (Hall c Hc).
    unfold result_bind.
    destruct (get_sentences tokenize c n true); [|done].
    by intros [= <- <-].
Qed.

End DispatchFacts.

(** *** The extractor on the examples *)

(** C1. A child rule called [sentence] is expanded as a nested Unit and
    yields no Sentence, while a child rule called [paragraph] is handed
    to sentence extraction and yields no nested Unit: the two branches of
    the test on the name are the wrong way round. *)
Theorem sentence_child_becomes_unit :
  extract_unit_information line_tokenizer rule_with_sentence_child hello_doc
  = Ok [mkUnit [] [mkUnit [] [] [] "sentence"] [] "doc"]
  ∧ extract_unit_information line_tokenizer rule_with_paragraph_child hello_doc
    = Ok [mkUnit [] [] [mkSentence "Hello world." [[]]] "doc"].
Proof. split; reflexivity. Qed.

Lemma missing_optional_key_witness :
  get_sentences line_tokenizer (mkStructure "doc" [] Absent Absent)
                hello_doc false
  = Raise (KeyError "metadata")
  ∧ extract_unit_information line_tokenizer rule_bare hello_doc
    = Raise (KeyError "metadata")
  ∧ extract_unit_information line_tokenizer rule_no_units hello_doc
    = Raise (KeyError "units").
Proof.
  apply (missing_optional_key_raises line_tokenizer "doc" "" [] Absent
           hello_doc (mkTag "doc" [] None [leaf "p" [] "Hello world."])
           (Element hello_doc) [] false); reflexivity.
Defined.

Lemma text_values_witness :
  xpath two_anchors "a" = Ok (tag_children two_anchors)
  ∧ get_xpath_text "a" two_anchors = Raise TypeError.
Proof.
  split; [reflexivity|].
  exact (text_values_from_whole_match_list "a" two_anchors
           (tag_children two_anchors) ltac:(by vm_compute) eq_refl).
Defined.

(** The same on the rule itself: no Metadata ["one"], ["two"] comes out. *)
Example text_rule_on_two_anchors :
  get_metadata (Some [rule_text]) two_anchors = Raise TypeError
  ∧ get_metadata (Some [rule_text_no_attr]) two_anchors
    = Raise (KeyError "attr").
Proof. split; reflexivity. Qed.

(** C6, the claim as written fails: the second [a] has no [id], and the
    Metadata of the first is not returned. *)
Lemma missing_attribute_not_skipped :
  xpath two_anchors "a"
  = Ok [leaf "a" [("id", "x y")] "one"; leaf "a" [] "two"]
  ∧ get (leaf "a" [("id", "x y")] "one") "id" = Some "x y"
  ∧ get (leaf "a" [] "two") "id" = None
  ∧ get_metadata (Some [rule_attr]) two_anchors = Raise AttributeError
  ∧ get_metadata (Some [rule_attr]) two_anchors
    ≠ Ok [mkMetadata "x" (Some "ident") rule_attr;
          mkMetadata "y" (Some "ident") rule_attr].
Proof. repeat split; done. Qed.

Lemma attribute_metadata_witness :
  get_metadata (Some [rule_attr]) two_ids
  = Ok [mkMetadata "x" (Some "ident") rule_attr;
        mkMetadata "y" (Some "ident") rule_attr;
        mkMetadata "z" (Some "ident") rule_attr]
  ∧ get_metadata (Some [rule_attr]) two_anchors = Raise AttributeError.
Proof.
  split.
  - apply (proj1 (attribute_metadata_all_or_error rule_attr "a" "id" "ident"
                    two_ids (tag_children two_ids) eq_refl eq_refl eq_refl
                    ltac:(by vm_compute) eq_refl) ["x y"; "z"]).
    repeat constructor.
  - apply (proj2 (attribute_metadata_all_or_error rule_attr "a" "id" "ident"
                    two_anchors (tag_children two_anchors) eq_refl eq_refl
                    eq_refl ltac:(by vm_compute) eq_refl)).
    right. by left.
Defined.

Lemma blank_xpath_witness :
  get_nodes_from_xpath "  " two_ids = Ok (Element two_ids)
  ∧ get_xpath_text "  " two_ids = Ok ["onetwo"]
  ∧ get_xpath_attribute "  " "id" (leaf "a" [("id", "x y")] "one")
    = Ok ["x"; "y"].
Proof.
  split; [|split].
  - exact (proj1 (blank_xpath_is_the_node "  " "id" two_ids eq_refl)).
  - exact (proj1 (proj2 (blank_xpath_is_the_node "  " "id" two_ids eq_refl))).
  - exact (proj2 (proj2 (blank_xpath_is_the_node "  " "id"
                           (leaf "a" [("id", "x y")] "one") eq_refl))).
Defined.

(** C10. A sentence rule without paths matches no node; when it also
    lacks the [metadata] key, sentence extraction without tokenizing
    raises [KeyError] where one Sentence with the empty text and no
    metadata is due.  The lookup that raises is the one of C2. *)
Theorem no_match_without_metadata_raises :
  Forall (fun xp => ∃ x, get_nodes_from_xpath xp hello_doc = Ok x
                         ∧ iter_etree x = []) (xpaths rule_no_metadata)
  ∧ get_sentences line_tokenizer rule_no_metadata hello_doc false
    = Raise (KeyError "metadata")
  ∧ get_sentences line_tokenizer rule_no_metadata hello_doc false
    ≠ Ok [mkSentence EmptyString []].
Proof. split; [constructor | split; done]. Qed.

Lemma no_match_with_metadata_example :
  get_sentences line_tokenizer rule_no_match hello_doc false
  = Ok [mkSentence EmptyString []].
Proof.
  apply (no_match_one_empty_sentence line_tokenizer rule_no_match hello_doc).
  - done.
  - constructor; [|constructor]. by exists (NodeList []).
Defined.

(** *** Lower case and containment *)

Lemma prefix_lower p s :
  String.prefix p s = true →
  String.prefix (Py.lower p) (Py.lower s) = true.
Proof.
  revert s. induction p as [|a p IH]; intros s; [by destruct s|].
  destruct s as [|b s]; simpl; [done|].
  destruct (ascii_dec a b) as [->|]; [|done].
  intros Hp. destruct (ascii_dec _ _); [auto | done].
Qed.

Lemma contains_lower p s :
  Py.contains p s = true →
  Py.contains (Py.lower p) (Py.lower s) = true.
Proof.
  induction s as [|b s IH]; cbn [Py.contains Py.lower];
    intros [Hp|Hs]%orb_prop; apply orb_true_iff.
  - left. exact (prefix_lower p EmptyString Hp).
  - done.
  - left. exact (prefix_lower p (String b s) Hp).
  - right. exact (IH Hs).
Qed.

Lemma contains_true_lower s :
  Py.contains "true" s = true → Py.contains "true" (Py.lower s) = true.
Proof. apply (contains_lower "true"). Qed.

(** *** The collection processor *)

Section ProcessorFacts.

Variable env : Env.

(** C8. With every stage flag holding a value that contains "true" and
    without a restart from scratch, the pipeline asks nothing of its
    collaborators and leaves the whole ledger as it found it. *)
Theorem finished_pipeline_is_noop (collection_dir docstruc_filename
    filename_extension : string) (w : world) :
  Py.contains "true"
    (Logger.get (ledger w) "finished_recording_text_and_metadata") = true →
  Py.contains "true"
    (Logger.get (ledger w) "finished_grammatical_processing") = true →
  Py.contains "true" (Logger.get (ledger w) "word_counts_done") = true →
  Py.contains "true" (Logger.get (ledger w) "tfidf_done") = true →
  Py.contains "true"
    (Logger.get (ledger w) "word_similarity_calculations_done") = true →
  process env collection_dir docstruc_filename filename_extension false w
  = (w, Ok tt).
Proof.
  intros H1 H2%contains_true_lower H3%contains_true_lower
         H4%contains_true_lower H5.
  unfold process, logger_get, when, mbind, M_bind, mret, M_ret.
  rewrite H1. cbn [negb].
  rewrite H2. cbn [negb]. rewrite andb_false_r.
  rewrite H3. cbn [negb].
  rewrite H4. cbn [negb].
  rewrite H5. cbn [negb]. rewrite andb_false_r.
  reflexivity.
Qed.

End ProcessorFacts.

Lemma finished_pipeline_witness :
  process (quiet_env three_files [1; 2]%Z) "dir" "s.json" ".xml" false all_done
  = (all_done, Ok tt).
Proof.
  apply (finished_pipeline_is_noop (quiet_env three_files [1; 2]%Z)
           "dir" "s.json" ".xml" all_done); reflexivity.
Defined.

Section ExtractionStageFacts.

Variable env : Env.

Lemma extractions_snoc (t : list event) (p : string) :
  extractions (t ++ [EExtract p]) = extractions t ++ [p].
Proof. unfold extractions. by rewrite omap_app. Qed.

(** A file whose marker is found in the ledger is passed over: nothing
    is asked, nothing is written. *)
Lemma record_file_skip (collection_dir docstruc_filename filename : string)
    (n : Z) (w : world) :
  Py.contains ("[" +:+ Py.str n +:+ "]")
              (Logger.get (ledger w) "text_and_metadata_recorded") = true →
  record_file env collection_dir docstruc_filename n filename w
  = (w, Ok (n + 1)%Z).
Proof.
  intros Hin.
  unfold record_file, logger_get, when, mbind, M_bind, mret, M_ret.
  by rewrite Hin.
Qed.


(** What one round of the loop asks of the extractor. *)
Lemma record_file_extractions
    (collection_dir docstruc_filename filename : string) (n : Z) (w : world) :
  extractions
    (trace (record_file env collection_dir docstruc_filename n filename w).1)
  = extractions (trace w) ++
    (if negb (Py.contains ("[" +:+ Py.str n +:+ "]")
                (Logger.get (ledger w) "text_and_metadata_recorded"))
        && visible filename
     then [Py.path_join collection_dir filename] else []).
Proof.
  unfold record_file, logger_get, logger_log, call, lift, when,
    mbind, M_bind, mret, M_ret.
  destruct (Py.contains _ _); cbn [negb andb fst]; [by rewrite app_nil_r|].
  destruct filename as [|c rest]; cbn [Py.first_char visible fst];
    [by rewrite app_nil_r|].
  destruct (negb (Ascii.eqb c ".")); cbn [fst trace ledger];
    [|by rewrite app_nil_r].
  destruct (extractor_extract env _ _); cbn [fst trace];
    apply extractions_snoc.
Qed.

(** C4. With the recorded markers "[1][2]" and three files of the
    extension in the listing, the stage hands the extractor the third
    file and no other; the first two are passed over.  (Nothing at all
    is handed over when the extractor cannot be built or the third file
    is hidden.) *)
Theorem resume_extracts_only_third
    (collection_dir docstruc_filename filename_extension : string)
    (w : world) (names : list string) (f1 f2 f3 : string) :
  listdir env collection_dir = Ok names →
  matching filename_extension names = [f1; f2; f3] →
  Logger.get (ledger w) "text_and_metadata_recorded" = "[1][2]" →
  extractions
    (trace (extract_record_metadata env collection_dir docstruc_filename
                                    filename_extension w).1)
  = extractions (trace w) ++
    (if is_ok (StructureExtractor_init env docstruc_filename) && visible f3
     then [Py.path_join collection_dir f3] else []).
Proof.
  intros Hls Hmatch Hrec.
  unfold extract_record_metadata, lift, mbind, M_bind.
  destruct (StructureExtractor_init env docstruc_filename) as [[]|e];
    cbn [is_ok andb fst]; [|by rewrite app_nil_r].
  rewrite Hls, Hmatch. cbn [forM]. unfold mbind, M_bind.
  rewrite record_file_skip by (by rewrite Hrec).
  rewrite record_file_skip by (by rewrite Hrec).
  pose proof (record_file_extractions collection_dir docstruc_filename f3
                (1 + 1 + 1) w) as Hthird.
  rewrite Hrec in Hthird.
  change (Py.contains _ "[1][2]") with false in Hthird.
  cbn [negb andb] in Hthird.
  destruct (record_file env collection_dir docstruc_filename (1 + 1 + 1) f3 w)
    as [w3 [n3|e3]]; cbn [fst] in *; unfold mret, M_ret, logger_log;
    cbn [fst trace]; exact Hthird.
Qed.

End ExtractionStageFacts.

Lemma resume_witness :
  matching ".xml" three_files = ["a.xml"; "b.XML"; "c.xml"]
  ∧ extractions
      (trace (extract_record_metadata (quiet_env three_files []) "dir" "s.json"
                                      ".xml" two_done).1)
    = ["dir/c.xml"].
Proof.
  split; [reflexivity|].
  exact (resume_extracts_only_third (quiet_env three_files []) "dir" "s.json"
           ".xml" two_done three_files "a.xml" "b.XML" "c.xml"
           eq_refl eq_refl eq_refl).
Defined.

Section ParsingStageFacts.

Variable env : Env.

Lemma advance_marker (l : gmap string string) (ids : list Z) :
  Logger.get (foldl advance l ids) "latest_parsed_document_id"
  = match last ids with
    | Some id => Py.str id
    | None => Logger.get l "latest_parsed_document_id"
    end.
Proof.
  induction ids as [|id ids _] using rev_ind; [done|].
  rewrite foldl_app, last_snoc. cbn [foldl].
  unfold advance, Logger.log, Logger.get. by rewrite lookup_insert_eq.
Qed.

(** A document at or below the marker is passed over. *)
Lemma parse_one_skip (k id : Z) (w : world) :
  (id ≤ k)%Z → parse_one env k tt id w = (w, Ok tt).
Proof.
  intros Hle. unfold parse_one, when.
  by rewrite (proj2 (Z.ltb_ge k id) Hle).
Qed.

(** A document above the marker is handed to the parser, and the marker
    is moved to its id once the parser has returned. *)
Lemma parse_one_run (k id : Z) (w : world) :
  (k < id)%Z → parse_document env id = Ok tt →
  parse_one env k tt id w
  = (mkWorld (advance (ledger w) id) (trace w ++ [EParse id]), Ok tt).
Proof.
  intros Hlt Hok. unfold parse_one, when.
  rewrite (proj2 (Z.ltb_lt k id) Hlt).
  unfold call, logger_log, mbind, M_bind. by rewrite Hok.
Qed.


Lemma parse_loop (k : Z) (docs : list Z) (w : world) :
  (∀ id, id ∈ docs → (k < id)%Z → parse_document env id = Ok tt) →
  forM (parse_one env k) docs tt w
  = (mkWorld (foldl advance (ledger w) (filter (fun id => (k < id)%Z) docs))
             (trace w ++ map EParse (filter (fun id => (k < id)%Z) docs)),
     Ok tt).
Proof.
  revert w. induction docs as [|id docs IH]; intros w Hok.
  - cbn. rewrite app_nil_r. by destruct w.
  - cbn [forM]. unfold mbind, M_bind.
    destruct (decide (k < id)%Z) as [Hlt|Hge].
    + rewrite (parse_one_run k id w Hlt) by (apply Hok; [left | done]).
      rewrite IH by (intros i Hi; apply Hok; by right).
      rewrite filter_cons_True by done. cbn [ledger trace foldl map].
      by rewrite <- app_assoc.
    + rewrite (parse_one_skip k id w) by lia.
      rewrite IH by (intros i Hi; apply Hok; by right).
      by rewrite filter_cons_False by done.
Qed.

Lemma filter_strongly_sorted (k : Z) (docs : list Z) :
  StronglySorted Z.lt docs →
  StronglySorted Z.lt (filter (fun id => (k < id)%Z) docs).
Proof.
  induction 1 as [|id docs _ IH Hall]; [constructor|].
  rewrite filter_cons. case_decide; [|done].
  constructor; [done|].
  rewrite Forall_forall in *. intros x [_ Hx]%list_elem_of_filter. auto.
Qed.



End ParsingStageFacts.



(** *** The completion markers *)





Section MarkerFacts.

Variable env : Env.





End MarkerFacts.


(** Two files and a fresh ledger: the first run extracts both and leaves
    the markers "[1][2]" and the flag "true"; a second run over the same
    directory extracts nothing. *)
Lemma markers_of_two_runs :
  let run := extract_record_metadata (quiet_env ["a.xml"; "b.xml"] [])
                                     "dir" "s.json" ".xml" in
  let w1 := (run fresh_world).1 in
  let w2 := (run w1).1 in
  trace w1 = [EExtract "dir/a.xml"; EExtract "dir/b.xml"]
  ∧ Logger.get (ledger w1) "text_and_metadata_recorded" = "[1][2]"
  ∧ Logger.get (ledger w1) "finished_recording_text_and_metadata" = "true"
  ∧ trace w2 = trace w1.
Proof. vm_compute. repeat split. Qed.

(** *** More on loops *)

Lemma foldM_app {A B} (f : B → A → result B) (l1 l2 : list A) (acc : B) :
  foldM f (l1 ++ l2) acc = (acc' ← foldM f l1 acc; foldM f l2 acc').
Proof.
  revert acc. induction l1 as [|x l1 IH]; intros acc; simpl; [done|].
  destruct (f acc x); [apply IH | done].
Qed.

(** A loop whose rounds only append to the accumulator can be run from
    the empty accumulator. *)
Lemma foldM_appending {A B} (f : list B → A → result (list B)) :
  (∀ acc x, f acc x = (r ← f [] x; Ok (acc ++ r))) →
  ∀ l acc, foldM f l acc = (r ← foldM f l []; Ok (acc ++ r)).
Proof.
  intros Hf l. induction l as [|x l IH]; intros acc.
  - cbn. by rewrite app_nil_r.
  - cbn [foldM]. rewrite (Hf acc x). unfold mbind, result_bind.
    destruct (f [] x) as [r|e]; [|done].
    rewrite (IH (acc ++ r)), (IH r). unfold mbind, result_bind.
    destruct (foldM f l []) as [r'|e]; [|done].
    by rewrite app_assoc.
Qed.

(** A loop whose successful rounds each add one element adds as many
    elements as it has rounds. *)
Lemma foldM_length {A B} (f : list B → A → result (list B)) (l : list A)
    (acc r : list B) :
  (∀ b a b', f b a = Ok b' → length b' = S (length b)) →
  foldM f l acc = Ok r →
  length r = (length acc + length l)%nat.
Proof.
  intros Hf. revert acc. induction l as [|x l IH]; intros acc; simpl.
  - intros [= <-]. lia.
  - destruct (f acc x) as [acc'|e] eqn:E; [|done].
    intros Hr. rewrite (IH _ Hr), (Hf _ _ _ E). lia.
Qed.

Section MoreMetadataFacts.

Context {node : Type} `{XmlNode node}.

(** X1. Every Metadata that [get_metadata] returns is stamped with one of
    the rules it was given, and its property name is what that rule holds
    under [propertyName]. *)
Theorem metadata_carries_its_rule (specs : list MetadataRule) (n : node)
    (mds : list Metadata) :
  get_metadata (Some specs) n = Ok mds →
  Forall (fun m => specification m ∈ specs
                   ∧ getitem "propertyName" (propertyName (specification m))
                     = Ok (property_name m)) mds.
Proof.
  unfold get_metadata.
  apply foldM_invariant; [constructor|].
  intros md spec md' Hspec Hmd. unfold mbind, result_bind.
  destruct (try_except_NameError (getitem "xpaths" _) _) as [xps|]; [|done].
  destruct (try_except_NameError (getitem "attr" _) _) as [attribute|];
    [|done].
  destruct xps as [xps|]; [|by intros [= <-]].
  apply foldM_invariant; [done|].
  intros md1 xp md1' _ Hmd1.
  match goal with
  | |- context [match ?e with Ok _ => _ | Raise _ => _ end] =>
      destruct e as [extracted|]; [|done]
  end.
  apply foldM_invariant; [done|].
  intros md2 val md2' _ Hmd2.
  destruct (getitem "propertyName" (propertyName spec)) as [pn|] eqn:Hpn;
    [|done].
  intros [= <-]. apply Forall_app. split; [done|].
  constructor; [|constructor]. by split.
Qed.

Lemma emit_appending (spec : MetadataRule) (extracted : list string)
    (md : list Metadata) :
  foldM (fun md val =>
           pn ← getitem "propertyName" (propertyName spec);
           Ok (md ++ [mkMetadata val pn spec]))
        extracted md
  = (r ← foldM (fun md val =>
                  pn ← getitem "propertyName" (propertyName spec);
                  Ok (md ++ [mkMetadata val pn spec]))
               extracted [];
     Ok (md ++ r)).
Proof.
  apply (foldM_appending
           (fun md val =>
              pn ← getitem "propertyName" (propertyName spec);
              Ok (md ++ [mkMetadata val pn spec]))).
  intros acc val. unfold mbind, result_bind.
  by destruct (getitem "propertyName" (propertyName spec)).
Qed.

(** The round of [get_metadata] for one rule. *)
Lemma rule_round_appending (n : node) (md : list Metadata)
    (spec : MetadataRule) :
  let round := fun (md : list Metadata) (spec : MetadataRule) =>
    xps ← try_except_NameError (getitem "xpaths" (m_xpaths spec)) None;
    attribute ← try_except_NameError (getitem "attr" (attr spec)) None;
    match xps with
    | None => Ok md
    | Some xps =>
        foldM (fun md xp =>
          extracted ←
            match attribute with
            | Some a => get_xpath_attribute xp a n
            | None => get_xpath_text xp n
            end;
          foldM (fun md val =>
                   pn ← getitem "propertyName" (propertyName spec);
                   Ok (md ++ [mkMetadata val pn spec]))
                extracted md)
          xps md
    end in
  round md spec = (r ← round [] spec; Ok (md ++ r)).
Proof.
  intros round. unfold round, mbind, result_bind.
  destruct (try_except_NameError (getitem "xpaths" _) _) as [xps|]; [|done].
  destruct (try_except_NameError (getitem "attr" _) _) as [attribute|];
    [|done].
  destruct xps as [xps|]; [|by rewrite app_nil_r].
  match goal with
  | |- foldM ?f xps md = _ => apply (foldM_appending f)
  end.
  intros acc xp.
  match goal with
  | |- context [match ?e with Ok _ => _ | Raise _ => _ end] =>
      destruct e as [extracted|]; [|done]
  end.
  apply emit_appending.
Qed.

(** X2. Metadata extraction over two lists of rules put end to end is
    the extraction over the first followed by the extraction over the
    second; an error in the first is the error of the whole. *)
Theorem metadata_of_rule_lists (r1 r2 : list MetadataRule) (n : node) :
  get_metadata (Some (r1 ++ r2)) n
  = (m1 ← get_metadata (Some r1) n;
     m2 ← get_metadata (Some r2) n;
     Ok (m1 ++ m2)).
Proof.
  unfold get_metadata. rewrite foldM_app. unfold mbind at 1 4.
  unfold result_bind at 1 4.
  match goal with
  | |- context [foldM ?f r1 []] => destruct (foldM f r1 []) as [m1|]; [|done]
  end.
  match goal with
  | |- foldM ?f r2 m1 = _ => apply (foldM_appending f)
  end.
  intros acc spec. apply rule_round_appending.
Qed.

End MoreMetadataFacts.

Lemma split_count (sep : ascii) (s : string) :
  length (Py.split sep s) = S (Py.count sep s).
Proof.
  induction s as [|c s IH]; [done|]. cbn [Py.split Py.count].
  destruct (Ascii.eqb c sep); cbn [length]; [by rewrite IH|].
  pose proof (split_not_nil sep s).
  destruct (Py.split sep s); [done|]. exact IH.
Qed.

Section MoreExtractorFacts.

Context {node : Type} `{XmlNode node}.
Variable tokenize : string → result (list Sentence).

(** X3. For a path that is not blank and matched nodes that all carry the
    attribute, there is one value per space-separated token, empty tokens
    included: as many values as matched nodes plus spaces in their
    attribute values. *)
Theorem attribute_values_count (xp a : string) (n : node) (ns : list node)
    (vs : list string) :
  Py.strip xp ≠ EmptyString →
  xpath n xp = Ok ns →
  Forall2 (fun m v => get m a = Some v) ns vs →
  ∃ vals, get_xpath_attribute xp a n = Ok vals
          ∧ length vals = (length ns + sum_list (map (Py.count " ") vs))%nat.
Proof.
  intros Hxp Hns Hall. exists (concat (map (Py.split " ") vs)). split.
  - unfold get_xpath_attribute.
    rewrite (strip_nonblank_length _ Hxp), Hns.
    exact (attr_loop a ns vs [] Hall).
  - clear Hns. induction Hall as [|m v ns vs _ _ IH]; [done|].
    cbn [map concat sum_list length]. rewrite length_app, split_count, IH.
    unfold id. lia.
Qed.

(** The loop over the nodes of one path in [get_sentences]. *)
Lemma sentence_nodes_loop (md : option (list MetadataRule))
    (nodes : list node) (txt txt' : string) (mds mds' : list (list Metadata)) :
  foldM (fun '(sentence_text, sentence_metadata) sentence_node =>
           t ← not_none (text sentence_node);
           m ← get_metadata md sentence_node;
           Ok (sentence_text +:+ Py.strip t +:+ Py.newline,
               sentence_metadata ++ [m]))
        nodes (txt, mds) = Ok (txt', mds') →
  length mds' = (length mds + length nodes)%nat.
Proof.
  revert txt mds. induction nodes as [|x nodes IH]; intros txt mds.
  - intros [= _ <-]. cbn. lia.
  - cbn [foldM]. unfold mbind, result_bind.
    destruct (not_none (text x)) as [t|]; [|done].
    destruct (get_metadata md x) as [m|]; [|done].
    intros Hr. rewrite (IH _ _ Hr), length_app. cbn. lia.
Qed.

Lemma gather_loop (md : option (list MetadataRule)) (parent : node)
    (xps : list string) (xs : list (etree node)) (txt txt' : string)
    (mds mds' : list (list Metadata)) :
  Forall2 (fun xp x => get_nodes_from_xpath xp parent = Ok x) xps xs →
  foldM (fun acc xp =>
           sentence_nodes ← get_nodes_from_xpath xp parent;
           foldM (fun '(sentence_text, sentence_metadata) sentence_node =>
                    t ← not_none (text sentence_node);
                    m ← get_metadata md sentence_node;
                    Ok (sentence_text +:+ Py.strip t +:+ Py.newline,
                        sentence_metadata ++ [m]))
                 (iter_etree sentence_nodes) acc)
        xps (txt, mds) = Ok (txt', mds') →
  length mds' = (length mds + length (concat (map iter_etree xs)))%nat.
Proof.
  intros Hall. revert txt mds.
  induction Hall as [|xp x xps xs Hx _ IH]; intros txt mds.
  - intros [= _ <-]. cbn. lia.
  - cbn [foldM]. rewrite Hx. unfold mbind at 1. unfold result_bind at 1.
    match goal with
    | |- context [foldM ?f (iter_etree x) (txt, mds)] =>
        destruct (foldM f (iter_etree x) (txt, mds)) as [[txt1 mds1]|] eqn:E;
          [|done]
    end.
    intros Hr. rewrite (IH _ _ Hr), (sentence_nodes_loop _ _ _ _ _ _ E).
    cbn [map concat]. rewrite length_app. lia.
Qed.

(** X4. Without tokenizing, a sentence extraction that returns, returns
    exactly one Sentence, and that Sentence carries one metadata list for
    each node the paths of the rule led to. *)
Theorem untokenized_is_one_sentence (structure : StructureRule)
    (parent : node) (xs : list (etree node)) (ss : list Sentence) :
  Forall2 (fun xp x => get_nodes_from_xpath xp parent = Ok x)
          (xpaths structure) xs →
  get_sentences tokenize structure parent false = Ok ss →
  ∃ s, ss = [s]
       ∧ length (s_metadata s) = length (concat (map iter_etree xs)).
Proof.
  intros Hall. unfold get_sentences. unfold mbind at 1. unfold result_bind at 1.
  destruct (try_except_NameError _ _) as [md|]; [|done].
  unfold mbind at 1. unfold result_bind at 1.
  match goal with
  | |- context [foldM ?f (xpaths structure) ?a] =>
      destruct (foldM f (xpaths structure) a) as [[txt mds]|] eqn:E; [|done]
  end.
  intros [= <-]. eexists. split; [done|]. cbn [s_metadata].
  by rewrite (gather_loop _ _ _ _ _ _ _ _ Hall E).
Qed.

(** The loop over the sentences that the tokenizer returned. *)
Lemma tokenized_loop (mds : list (list Metadata)) (sents acc : list Sentence) :
  foldM (fun sentences s =>
           let s := mkSentence (sentence s) mds in
           if String.eqb (sentence s) EmptyString then Raise ValueError
           else Ok (sentences ++ [s]))
        sents acc
  = if forallb (fun t => negb (String.eqb (sentence t) EmptyString)) sents
    then Ok (acc ++ map (fun t => mkSentence (sentence t) mds) sents)
    else Raise ValueError.
Proof.
  revert acc. induction sents as [|t sents IH]; intros acc.
  - cbn. by rewrite app_nil_r.
  - cbn [foldM forallb map sentence].
    destruct (String.eqb (sentence t) EmptyString); cbn [negb andb]; [done|].
    rewrite IH. destruct (forallb _ sents); [|done].
    by rewrite <- app_assoc.
Qed.

(** X5. With tokenizing, the text that the untokenized run gathers goes
    to the tokenizer; its sentences come back in order, every one with
    the whole gathered metadata, and a sentence with an empty text makes
    the extraction raise [ValueError]. *)
Theorem tokenized_sentences (structure : StructureRule) (parent : node)
    (txt : string) (mds : list (list Metadata)) (toks : list Sentence) :
  get_sentences tokenize structure parent false = Ok [mkSentence txt mds] →
  tokenize txt = Ok toks →
  get_sentences tokenize structure parent true
  = if forallb (fun t => negb (String.eqb (sentence t) EmptyString)) toks
    then Ok (map (fun t => mkSentence (sentence t) mds) toks)
    else Raise ValueError.
Proof.
  unfold get_sentences, mbind, result_bind.
  destruct (try_except_NameError _ _) as [md|]; [|done].
  match goal with
  | |- context [foldM ?f (xpaths structure) ?a] =>
      destruct (foldM f (xpaths structure) a) as [[txt0 mds0]|]; [|done]
  end.
  intros [= -> ->] Htok. rewrite Htok.
  exact (tokenized_loop mds toks []).
Qed.

(** X6. Every Unit that a unit extraction returns is named after the
    rule that built it. *)
Theorem units_named (structure : StructureRule) (parent : node)
    (us : list Unit) :
  extract_unit_information tokenize structure parent = Ok us →
  Forall (fun u => u_name u = structureName structure) us.
Proof.
  destruct structure as [name xps md cs].
  cbn [extract_unit_information xpaths structureName].
  apply foldM_invariant; [constructor|].
  intros b xp b' _ Hb. unfold mbind, result_bind at 1.
  destruct (get_nodes_from_xpath xp parent) as [nodes|]; [|done].
  unfold result_bind at 1. destruct (children nodes) as [ns|]; [|done].
  apply foldM_invariant; [done|].
  intros b1 n b1' _ Hb1. unfold result_bind at 1.
  destruct (try_except_NameError _ _) as [mds|]; [|done].
  unfold result_bind at 1. destruct (get_metadata mds n) as [um|]; [|done].
  unfold result_bind at 1.
  match goal with
  | |- context [match ?e with Ok _ => _ | Raise _ => _ end] =>
      destruct e as [[chn sents]|]; [|done]
  end.
  intros [= <-]. apply Forall_app. split; [done|]. by repeat constructor.
Qed.

(** X19. On a library whose nodes and node lists have no [children],
    [extract] returns no Document: it raises, or it returns the empty
    list. *)
Theorem extract_without_children (parse : string → result node)
    (document_structure : StructureRule) (file_name : string)
    (docs : list Document) :
  (∀ x : etree node, is_ok (children x) = false) →
  extract tokenize parse document_structure file_name = Ok docs →
  docs = [].
Proof.
  intros Hno. unfold extract, mbind, result_bind.
  destruct (parse file_name) as [doc|]; [|done].
  destruct (extract_unit_information tokenize document_structure doc)
    as [us|] eqn:E; [|done].
  intros [= <-]. enough (us = []) as -> by done.
  revert E. destruct document_structure as [name xps md cs].
  cbn [extract_unit_information xpaths structureName].
  apply (foldM_invariant (fun r => r = [])); [done|].
  intros b xp b' _ _. unfold mbind, result_bind at 1.
  destruct (get_nodes_from_xpath xp doc) as [nodes|]; [|done].
  unfold result_bind at 1. specialize (Hno nodes).
  by destruct (children nodes).
Qed.

(** X7. A unit extraction that returns, returns one Unit for each child of
    each node its paths led to. *)
Theorem one_unit_per_child (structure : StructureRule) (parent : node)
    (css : list (list node)) (us : list Unit) :
  Forall2 (fun xp cs => ∃ x, get_nodes_from_xpath xp parent = Ok x
                             ∧ children x = Ok cs) (xpaths structure) css →
  extract_unit_information tokenize structure parent = Ok us →
  length us = length (concat css).
Proof.
  destruct structure as [name xps md cus].
  cbn [extract_unit_information xpaths structureName metadata units].
  match goal with
  | |- _ → foldM ?F xps [] = Ok us → _ =>
      assert (Hgen : ∀ css us acc,
                 Forall2 (fun xp cs => ∃ x, get_nodes_from_xpath xp parent = Ok x
                                            ∧ children x = Ok cs) xps css →
                 foldM F xps acc = Ok us →
                 length us = (length acc + length (concat css))%nat);
        [|intros Hall Hr; exact (Hgen css us [] Hall Hr)]
  end.
  clear css us. intros css us acc Hall. revert us acc.
  induction Hall as [|xp cs xps css (x & Hx & Hcs) _ IH]; intros us acc.
  - intros [= <-]. cbn. lia.
  - cbn [foldM]. rewrite Hx. unfold mbind at 1. unfold result_bind at 1.
    rewrite Hcs. unfold mbind at 1. unfold result_bind at 1.
    match goal with
    | |- context [foldM ?f cs acc] =>
        destruct (foldM f cs acc) as [acc'|] eqn:E; [|done];
        apply (foldM_length f) in E
    end.
    + intros Hr. rewrite (IH _ _ Hr), E. cbn [concat]. rewrite length_app. lia.
    + intros b n b'. unfold mbind, result_bind.
      destruct (try_except_NameError _ _) as [mds|]; [|done].
      destruct (get_metadata mds n) as [um|]; [|done].
      match goal with
      | |- context [match ?e with Ok _ => _ | Raise _ => _ end] =>
          destruct e as [[chn sents]|]; [|done]
      end.
      intros [= <-]. rewrite length_app. cbn. lia.
Qed.

End MoreExtractorFacts.

(** *** [str] and [int] *)

Lemma rev_app_rev_app (s t u : string) :
  String.rev_app (String.rev_app s t) u = String.rev_app t (s +:+ u).
Proof.
  revert t u. induction s as [|c s IH]; intros t u; [done|].
  cbn [String.rev_app]. rewrite IH. reflexivity.
Qed.

Lemma append_empty_r (s : string) : s +:+ EmptyString = s.
Proof.
  induction s as [|c s IH]; [done|].
  change (String c s +:+ EmptyString) with (String c (s +:+ EmptyString)).
  by rewrite IH.
Qed.

Lemma string_rev_involutive (s : string) : String.rev (String.rev s) = s.
Proof.
  unfold String.rev. rewrite rev_app_rev_app. cbn [String.rev_app].
  apply append_empty_r.
Qed.

Lemma plain_rev_app (s t : string) :
  plain (String.rev_app s t) = plain s && plain t.
Proof.
  revert t. induction s as [|c s IH]; intros t; [done|].
  cbn [String.rev_app plain]. rewrite IH. cbn [plain].
  destruct (negb (Py.is_space c) && negb (Ascii.eqb c "+")), (plain s),
    (plain t); done.
Qed.

Lemma lstrip_plain (s : string) : plain s = true → Py.lstrip s = s.
Proof.
  destruct s as [|c s]; [done|]. cbn [plain Py.lstrip].
  by destruct (Py.is_space c).
Qed.

Lemma strip_plain (s : string) : plain s = true → Py.strip s = s.
Proof.
  intros Hs. unfold Py.strip, Py.rstrip. rewrite (lstrip_plain s Hs).
  rewrite lstrip_plain; [apply string_rev_involutive|].
  unfold String.rev. by rewrite plain_rev_app, Hs.
Qed.

Lemma plain_uint (d : Decimal.uint) :
  plain (NilEmpty.string_of_uint d) = true.
Proof. induction d; [done|cbn [NilEmpty.string_of_uint plain]; by rewrite IHd..]. Qed.

Lemma plain_str (z : Z) : plain (Py.str z) = true.
Proof.
  unfold Py.str, NilZero.string_of_int, NilZero.string_of_uint.
  destruct (Z.to_int z) as [d|d]; destruct d; try done;
    try apply (plain_uint (Decimal.D0 _));
    try apply (plain_uint (Decimal.D1 _));
    try apply (plain_uint (Decimal.D2 _));
    try apply (plain_uint (Decimal.D3 _));
    try apply (plain_uint (Decimal.D4 _));
    try apply (plain_uint (Decimal.D5 _));
    try apply (plain_uint (Decimal.D6 _));
    try apply (plain_uint (Decimal.D7 _));
    try apply (plain_uint (Decimal.D8 _));
    try apply (plain_uint (Decimal.D9 _));
    cbn [plain]; rewrite ?andb_true_l;
    first [ apply (plain_uint (Decimal.D0 _))
          | apply (plain_uint (Decimal.D1 _))
          | apply (plain_uint (Decimal.D2 _))
          | apply (plain_uint (Decimal.D3 _))
          | apply (plain_uint (Decimal.D4 _))
          | apply (plain_uint (Decimal.D5 _))
          | apply (plain_uint (Decimal.D6 _))
          | apply (plain_uint (Decimal.D7 _))
          | apply (plain_uint (Decimal.D8 _))
          | apply (plain_uint (Decimal.D9 _)) ].
Qed.

Lemma int_of_plain (s : string) :
  plain s = true →
  Py.int s = match NilZero.int_of_string s with
             | Some d => Ok (Z.of_int d)
             | None => Raise ValueError
             end.
Proof.
  intros Hs. unfold Py.int. rewrite (strip_plain s Hs).
  destruct s as [|c s]; [done|]. cbn [plain] in Hs.
  destruct (Ascii.eqb c "+") eqn:Hc;
    [by rewrite andb_false_r in Hs|].
  destruct c as [[] [] [] [] [] [] [] []]; done.
Qed.

(** What [str] writes, [int] reads back. *)
Lemma int_str (z : Z) : Py.int (Py.str z) = Ok z.
Proof.
  rewrite (int_of_plain _ (plain_str z)). unfold Py.str.
  rewrite NilZero.isi.
  - by rewrite DecimalZ.of_to.
  - destruct z; [done| |done].
    intros [= E]. by apply DecimalPos.Unsigned.to_uint_nonnil in E.
  - destruct z; [done|done|].
    intros [= E]. by apply DecimalPos.Unsigned.to_uint_nonnil in E.
Qed.

Lemma str_not_empty (z : Z) : (String.length (Py.str z) =? 0)%nat = false.
Proof.
  pose proof (int_str z) as E.
  destruct (Py.str z); [done|done].
Qed.

(** *** More on the collection processor *)

(** What holds of the world before a loop and is kept by every round,
    however the round ends, holds of the world after the loop. *)
Lemma forM_world_invariant {A B} (P : world → Prop) (f : B → A → M B)
    (l : list A) (acc : B) (w : world) :
  P w →
  (∀ acc x w0, P w0 → P (f acc x w0).1) →
  P (forM f l acc w).1.
Proof.
  intros Hw Hstep. revert acc w Hw.
  induction l as [|x l IH]; intros acc w Hw; [done|].
  cbn [forM]. unfold mbind, M_bind.
  pose proof (Hstep acc x w Hw) as H1.
  destruct (f acc x w) as [w1 [acc1|e]]; [by apply IH | done].
Qed.

Lemma sorted_last_is_greatest (l : list Z) (m : Z) :
  StronglySorted Z.lt l → last l = Some m → Forall (fun x => (x ≤ m)%Z) l.
Proof.
  induction 1 as [|x l Hs IH Hall]; [done|].
  destruct l as [|y l].
  - intros [= <-]. constructor; [lia | constructor].
  - rewrite last_cons_cons. intros Hm. constructor; [|by apply IH].
    assert (m ∈ y :: l) as Hin by by apply last_Some_elem_of.
    rewrite Forall_forall in Hall. specialize (Hall m Hin). lia.
Qed.

Section MoreProcessorFacts.

Variable env : Env.

(** What one round of the extraction loop adds to the trace. *)
Lemma record_file_trace (collection_dir docstruc_filename filename : string)
    (n : Z) (w : world) :
  trace (record_file env collection_dir docstruc_filename n filename w).1
  = trace w ++
    (if negb (Py.contains ("[" +:+ Py.str n +:+ "]")
                (Logger.get (ledger w) "text_and_metadata_recorded"))
        && visible filename
     then [EExtract (Py.path_join collection_dir filename)] else []).
Proof.
  unfold record_file, logger_get, logger_log, call, lift, when,
    mbind, M_bind, mret, M_ret.
  destruct (Py.contains _ _); cbn [negb andb fst]; [by rewrite app_nil_r|].
  destruct filename as [|c rest]; cbn [Py.first_char visible fst];
    [by rewrite app_nil_r|].
  destruct (negb (Ascii.eqb c ".")); cbn [fst trace ledger];
    [|by rewrite app_nil_r].
  by destruct (extractor_extract env _ _).
Qed.

Lemma record_loop_trace (collection_dir docstruc_filename : string)
    (contents : list string) (n : Z) (w : world) :
  ∃ ps,
    trace (forM (record_file env collection_dir docstruc_filename)
                contents n w).1
    = trace w ++ map EExtract ps
    ∧ ps `sublist_of` map (Py.path_join collection_dir)
                          (List.filter visible contents).
Proof.
  revert n w. induction contents as [|f contents IH]; intros n w.
  - exists []. cbn. by rewrite app_nil_r.
  - cbn [forM]. unfold mbind, M_bind.
    pose proof (record_file_trace collection_dir docstruc_filename f n w)
      as Hstep.
    destruct (record_file env collection_dir docstruc_filename n f w)
      as [w1 [n1|e]]; cbn [fst] in *.
    + destruct (IH n1 w1) as (ps & Hps & Hsub). rewrite Hps, Hstep.
      cbn [List.filter].
      destruct (negb _ && visible f) eqn:E.
      * apply andb_prop in E as [_ ->]. exists (Py.path_join collection_dir f :: ps).
        split; [by rewrite <- app_assoc | by constructor].
      * exists ps. split; [by rewrite app_nil_r|].
        destruct (visible f); [by constructor | done].
    + rewrite Hstep. cbn [List.filter].
      destruct (negb _ && visible f) eqn:E.
      * apply andb_prop in E as [_ ->]. exists [Py.path_join collection_dir f].
        split; [done|]. constructor. apply sublist_nil_l.
      * exists []. split; [done | apply sublist_nil_l].
Qed.

(** The extraction stage asks only for extractions. *)
Lemma stage_trace
    (collection_dir docstruc_filename filename_extension : string) (w : world) :
  ∃ ps,
    trace (extract_record_metadata env collection_dir docstruc_filename
                                   filename_extension w).1
    = trace w ++ map EExtract ps
    ∧ ∀ names, listdir env collection_dir = Ok names →
        ps `sublist_of` map (Py.path_join collection_dir)
             (List.filter visible (matching filename_extension names)).
Proof.
  unfold extract_record_metadata, lift, mbind, M_bind.
  destruct (StructureExtractor_init env docstruc_filename) as [[]|e].
  2:{ exists []. cbn. rewrite app_nil_r. split; [done|].
      intros. apply sublist_nil_l. }
  destruct (listdir env collection_dir) as [names|e].
  2:{ exists []. cbn. rewrite app_nil_r. split; [done|]. done. }
  destruct (record_loop_trace collection_dir docstruc_filename
              (matching filename_extension names) 1 w) as (ps & Hps & Hsub).
  exists ps. split; [|by intros ? [= <-]].
  destruct (forM _ _ _ w) as [w1 [n1|e]]; exact Hps.
Qed.

(** X8. Whatever the ledger holds, the extraction stage hands the
    extractor only files of the listing that have the extension and do not
    start with a dot, each at most once and in listing order, and asks
    nothing else of its collaborators. *)
Theorem only_visible_matching_files_extracted
    (collection_dir docstruc_filename filename_extension : string)
    (w : world) (names : list string) :
  listdir env collection_dir = Ok names →
  ∃ ps,
    trace (extract_record_metadata env collection_dir docstruc_filename
                                   filename_extension w).1
    = trace w ++ map EExtract ps
    ∧ ps `sublist_of` map (Py.path_join collection_dir)
                          (List.filter visible
                                       (matching filename_extension names)).
Proof.
  intros Hls.
  destruct (stage_trace collection_dir docstruc_filename filename_extension w)
    as (ps & Hps & Hsub).
  exists ps. split; [done | by apply Hsub].
Qed.

End MoreProcessorFacts.

Section StageFlagFacts.

Variable env : Env.

Lemma record_file_raise_flag
    (collection_dir docstruc_filename filename : string) (n : Z)
    (w w' : world) (e : exn) :
  filename ≠ EmptyString →
  record_file env collection_dir docstruc_filename n filename w
  = (w', Raise e) →
  Logger.get (ledger w') "finished_recording_text_and_metadata" = "false".
Proof.
  intros Hne.
  unfold record_file, logger_get, logger_log, call, lift, when,
    mbind, M_bind, mret, M_ret.
  destruct (Py.contains _ _); [done|].
  destruct filename as [|c rest]; [done|]. cbn [Py.first_char].
  destruct (negb (Ascii.eqb c ".")); [|done]. cbn [ledger trace].
  destruct (extractor_extract env _ _); [done|].
  intros [= <- _]. cbn [ledger].
  cbv beta iota delta [Logger.get Logger.log].
  by rewrite lookup_insert_eq.
Qed.

Lemma record_loop_raise_flag (collection_dir docstruc_filename : string)
    (contents : list string) (n : Z) (w w' : world) (e : exn) :
  Forall (fun f => f ≠ EmptyString) contents →
  forM (record_file env collection_dir docstruc_filename) contents n w
  = (w', Raise e) →
  Logger.get (ledger w') "finished_recording_text_and_metadata" = "false".
Proof.
  intros Hall. revert n w.
  induction Hall as [|f contents Hf _ IH]; intros n w; [done|].
  cbn [forM]. unfold mbind, M_bind.
  destruct (record_file env collection_dir docstruc_filename n f w)
    as [w1 [n1|e1]] eqn:E.
  - apply IH.
  - intros [= <- <-]. by apply (record_file_raise_flag _ _ _ _ _ _ _ Hf E).
Qed.

(** X9. When the extractor can be built and the directory listed, the
    stage flag tells how the extraction stage ended: "true" after a run
    that went through every file, "false" after a run that an extraction
    broke off. *)
Theorem stage_flag_tells_completion
    (collection_dir docstruc_filename filename_extension : string)
    (w : world) (names : list string) :
  StructureExtractor_init env docstruc_filename = Ok tt →
  listdir env collection_dir = Ok names →
  Forall (fun f => f ≠ EmptyString) (matching filename_extension names) →
  let run := extract_record_metadata env collection_dir docstruc_filename
                                     filename_extension w in
  Logger.get (ledger run.1) "finished_recording_text_and_metadata"
  = if is_ok run.2 then "true" else "false".
Proof.
  intros Hinit Hls Hall run. unfold run, extract_record_metadata.
  unfold lift, mbind, M_bind. rewrite Hinit, Hls.
  destruct (forM _ _ _ w) as [w1 [n1|e]] eqn:E; cbn [fst snd is_ok].
  - unfold logger_log. cbn [fst snd ledger is_ok].
    cbv beta iota delta [Logger.get Logger.log].
    by rewrite lookup_insert_eq.
  - by apply (record_loop_raise_flag _ _ _ _ _ _ _ Hall E).
Qed.

(** The whole parsing stage, when the parser raises on no document it is
    given. *)
Lemma parse_documents_run (w : world) (k : Z) :
  DocumentParser_init env = Ok tt →
  Py.int (let latest := Logger.get (ledger w) "latest_parsed_document_id" in
          if (String.length latest =? 0)%nat then "0" else latest) = Ok k →
  (∀ id, id ∈ Document_query_all env → (k < id)%Z →
         parse_document env id = Ok tt) →
  parse_documents env w
  = (mkWorld (foldl advance (ledger w)
                (filter (fun id => (k < id)%Z) (Document_query_all env)))
             (trace w ++
              map EParse (filter (fun id => (k < id)%Z)
                                 (Document_query_all env)) ++ [ECount]),
     counter_count env).
Proof.
  intros Hinit Hint Hok.
  unfold parse_documents, lift, logger_get, call, mbind, M_bind.
  rewrite Hinit. cbv zeta in Hint. rewrite Hint.
  rewrite (parse_loop env k _ w Hok). cbn [fst ledger trace].
  by rewrite <- app_assoc.
Qed.

Lemma filter_none_above (m : Z) (l : list Z) :
  Forall (fun x => (x ≤ m)%Z) l → filter (fun id => (m < id)%Z) l = [].
Proof.
  induction 1 as [|x l Hx _ IH]; [done|].
  rewrite filter_cons_False by lia. exact IH.
Qed.

(** X10. After a parsing stage over documents listed in ascending order
    of id, in which the parser never raised, a second parsing stage gives
    the parser nothing: the marker it reads back is the greatest id. *)
Theorem second_parse_run_parses_nothing (w : world) (k : Z) :
  DocumentParser_init env = Ok tt →
  Py.int (let latest := Logger.get (ledger w) "latest_parsed_document_id" in
          if (String.length latest =? 0)%nat then "0" else latest) = Ok k →
  (∀ id, id ∈ Document_query_all env → (k < id)%Z →
         parse_document env id = Ok tt) →
  StronglySorted Z.lt (Document_query_all env) →
  let w1 := (parse_documents env w).1 in
  parse_documents env w1
  = (mkWorld (ledger w1) (trace w1 ++ [ECount]), counter_count env).
Proof.
  intros Hinit Hint Hok Hsorted w1.
  unfold w1. rewrite (parse_documents_run w k Hinit Hint Hok). cbn [fst].
  set (docs := Document_query_all env) in *.
  set (parsed := filter (fun id => (k < id)%Z) docs).
  set (l1 := foldl advance (ledger w) parsed).
  set (w' := mkWorld l1 _).
  assert (Hmark : Logger.get l1 "latest_parsed_document_id"
                  = match last parsed with
                    | Some id => Py.str id
                    | None => Logger.get (ledger w) "latest_parsed_document_id"
                    end) by apply advance_marker.
  destruct (last parsed) as [m|] eqn:Hlast.
  - assert (Hle : Forall (fun x => (x ≤ m)%Z) docs).
    { pose proof (sorted_last_is_greatest parsed m
                    (filter_strongly_sorted k docs Hsorted) Hlast) as Hp.
      rewrite Forall_forall in Hp |- *. intros x Hx.
      assert (m ∈ parsed) as Hm by by apply last_Some_elem_of.
      apply list_elem_of_filter in Hm as [Hkm _].
      destruct (decide (k < x)%Z) as [Hkx|Hkx]; [|lia].
      apply Hp. by apply list_elem_of_filter. }
    rewrite (parse_documents_run w' m Hinit).
    + fold docs. rewrite (filter_none_above m docs Hle). done.
    + cbn [ledger w']. cbv zeta. rewrite Hmark, str_not_empty.
      apply int_str.
    + fold docs. intros id Hid Hlt. rewrite Forall_forall in Hle.
      specialize (Hle id Hid). lia.
  - apply last_None in Hlast.
    rewrite (parse_documents_run w' k Hinit).
    + fold docs. fold parsed. by rewrite Hlast.
    + cbn [ledger w']. cbv zeta. by rewrite Hmark.
    + done.
Qed.

(** X11. The parsing stage never marks itself finished: after it, the
    flag [finished_grammatical_processing] holds what it held before, or
    "false". *)
Theorem parsing_never_sets_its_flag (w : world) :
  let w' := (parse_documents env w).1 in
  Logger.get (ledger w') "finished_grammatical_processing"
  = Logger.get (ledger w) "finished_grammatical_processing"
  ∨ Logger.get (ledger w') "finished_grammatical_processing" = "false".
Proof.
  intros w'. unfold w', parse_documents, lift, logger_get, call, mbind, M_bind.
  destruct (DocumentParser_init env) as [[]|]; [|by left].
  destruct (Py.int _) as [k|]; [|by left].
  pose proof (forM_world_invariant
                (fun w0 =>
                   Logger.get (ledger w0) "finished_grammatical_processing"
                   = Logger.get (ledger w) "finished_grammatical_processing"
                   ∨ Logger.get (ledger w0) "finished_grammatical_processing"
                     = "false")
                (parse_one env k) (Document_query_all env) tt w) as Hinv.
  destruct (forM _ _ _ w) as [w1 [[]|e]]; cbn [fst ledger] in *;
    apply Hinv; try (by left).
  all: intros [] id w0 Hw0; unfold parse_one, when, call, logger_log,
         mbind, M_bind;
       destruct (k <? id)%Z; [|done]; cbn [ledger trace];
       destruct (parse_document env id) as [[]|]; cbn [fst ledger];
         [|done];
       right; cbv beta iota delta [Logger.get Logger.log];
       rewrite lookup_insert_ne by done; by rewrite lookup_insert_eq.
Qed.

End StageFlagFacts.

Section MoreProcessFacts.

Variable env : Env.

(** X12. The last two stages only read their flags.  Without a restart
    from scratch, when the extraction flag contains "true", the parsing
    stage is switched off or its flag contains "true" in some case of
    letters, and the word-count flag does too, the pipeline changes
    nothing, whatever [tfidf_done] and
    [word_similarity_calculations_done] hold. *)
Theorem later_flags_do_not_matter (collection_dir docstruc_filename
    filename_extension : string) (w : world) :
  Py.contains "true"
    (Logger.get (ledger w) "finished_recording_text_and_metadata") = true →
  (GRAMMATICAL_PROCESSING env
   || WORD_TO_WORD_SIMILARITY env && PART_OF_SPEECH_TAGGING env)
  && negb (Py.contains "true"
             (Py.lower (Logger.get (ledger w)
                                   "finished_grammatical_processing")))
  = false →
  Py.contains "true" (Py.lower (Logger.get (ledger w) "word_counts_done"))
  = true →
  process env collection_dir docstruc_filename filename_extension false w
  = (w, Ok tt).
Proof.
  intros H1 H2 H3.
  unfold process, logger_get, when, mbind, M_bind, mret, M_ret.
  rewrite H1. cbn [negb].
  rewrite H2. cbv beta iota.
  rewrite H3. cbn [negb].
  destruct (negb (Py.contains "true"
                    (Py.lower (Logger.get (ledger w) "tfidf_done"))));
    cbv beta iota;
    destruct (WORD_TO_WORD_SIMILARITY env
              && negb (Py.contains "true"
                         (Logger.get (ledger w)
                            "word_similarity_calculations_done")));
    reflexivity.
Qed.

(** X13. After a pipeline run that ends normally, the value of
    [word_counts_done] passes the test the pipeline itself makes of it:
    put in lower case, it contains "true". *)
Theorem word_counts_marked_done (collection_dir docstruc_filename
    filename_extension : string) (start_from_scratch : bool) (w w' : world) :
  process env collection_dir docstruc_filename filename_extension
          start_from_scratch w = (w', Ok tt) →
  Py.contains "true" (Py.lower (Logger.get (ledger w') "word_counts_done"))
  = true.
Proof.
  unfold process, logger_get, logger_log, mbind, M_bind, mret, M_ret.
  destruct (when start_from_scratch _ w) as [w0 [[]|]]; [|done].
  destruct (when (negb _) _ w0) as [w1 [[]|]]; [|done].
  destruct (when (_ && negb _) _ w1) as [w2 [[]|]]; [|done].
  unfold when, mret, M_ret.
  destruct (negb (Py.contains "true"
                    (Py.lower (Logger.get (ledger w2) "word_counts_done"))))
    eqn:E3.
  - cbv beta iota.
    repeat match goal with
           | |- context [if ?b then _ else _] => destruct b; cbv beta iota
           end.
    all: intros [= <-]; cbn [ledger];
      cbv beta iota delta [Logger.get Logger.log];
      by rewrite lookup_insert_eq.
  - apply negb_false_iff in E3. cbv beta iota.
    repeat match goal with
           | |- context [if ?b then _ else _] => destruct b; cbv beta iota
           end.
    all: by intros [= <-].
Qed.

(** X14. With grammatical processing switched off, and similarity or
    part-of-speech tagging switched off, the pipeline never calls the
    parser: it asks for a reset at most, and for extractions. *)
Theorem parser_not_called_when_switched_off (collection_dir
    docstruc_filename filename_extension : string)
    (start_from_scratch : bool) (w : world) :
  GRAMMATICAL_PROCESSING env = false →
  WORD_TO_WORD_SIMILARITY env && PART_OF_SPEECH_TAGGING env = false →
  ∃ evs,
    trace (process env collection_dir docstruc_filename filename_extension
                   start_from_scratch w).1
    = trace w ++ evs
    ∧ Forall (fun e => e = EReset ∨ ∃ p, e = EExtract p) evs.
Proof.
  intros HG HWP.
  unfold process, logger_get, logger_log, mbind, M_bind. rewrite HG, HWP.
  cbn [orb andb].
  assert (H0 : ∃ evs0, ∀ w0 r0,
             when start_from_scratch
               (fun w => (mkWorld (database_reset env (ledger w))
                                  (trace w ++ [EReset]), Ok tt)) w
             = (w0, r0) →
             r0 = Ok tt ∧ trace w0 = trace w ++ evs0
             ∧ Forall (fun e => e = EReset ∨ ∃ p, e = EExtract p) evs0).
  { destruct start_from_scratch; cbn [when].
    - exists [EReset]. intros w0 r0 [= <- <-]. repeat split.
      constructor; [by left | constructor].
    - exists []. intros w0 r0 [= <- <-]. cbn. by rewrite app_nil_r. }
  destruct H0 as (evs0 & H0).
  destruct (when start_from_scratch _ w) as [w0 r0] eqn:E0.
  destruct (H0 w0 r0 eq_refl) as (-> & Ht0 & Hall0).
  assert (H1 : ∃ ps, ∀ w1 r1,
             when (negb (Py.contains "true"
                     (Logger.get (ledger w0)
                        "finished_recording_text_and_metadata")))
                  (extract_record_metadata env collection_dir
                     docstruc_filename filename_extension) w0
             = (w1, r1) →
             trace w1 = trace w0 ++ map EExtract ps).
  { destruct (negb _); cbn [when].
    - destruct (stage_trace env collection_dir docstruc_filename
                  filename_extension w0) as (ps & Hps & _).
      exists ps. intros w1 r1 E. by rewrite E in Hps.
    - exists []. intros w1 r1 [= <- <-]. cbn. by rewrite app_nil_r. }
  destruct H1 as (ps & H1).
  destruct (when (negb _) _ w0) as [w1 r1] eqn:E1.
  pose proof (H1 w1 r1 eq_refl) as Ht1.
  exists (evs0 ++ map EExtract ps). split.
  - rewrite app_assoc, <- Ht0, <- Ht1.
    destruct r1 as [[]|]; [|done]. unfold when, mret, M_ret.
    destruct (negb (Py.contains "true" (Py.lower _)));
      destruct (negb (Py.contains "true" (Py.lower _)));
      destruct (_ && negb _); reflexivity.
  - apply Forall_app. split; [done|].
    clear. induction ps; constructor; [right; eauto | done].
Qed.

End MoreProcessFacts.

(** *** The model mixin *)

Lemma lower_char_underscore (c : ascii) :
  Ascii.eqb (Py.lower_char c) "_" = Ascii.eqb c "_".
Proof. destruct c as [[] [] [] [] [] [] [] []]; reflexivity. Qed.

Lemma underscore_not_capital (c : ascii) :
  Base.is_upper c = true → Ascii.eqb c "_" = false.
Proof. destruct c as [[] [] [] [] [] [] [] []]; done. Qed.

Lemma without_underscores_lower (s : string) :
  without_underscores (Py.lower s) = Py.lower (without_underscores s).
Proof.
  induction s as [|c s IH]; [done|].
  cbn [Py.lower without_underscores]. rewrite lower_char_underscore, IH.
  by destruct (Ascii.eqb c "_").
Qed.

Lemma without_underscores_cons (c : ascii) (s : string) :
  without_underscores (String c s)
  = if Ascii.eqb c "_" then without_underscores s
    else String c (without_underscores s).
Proof. reflexivity. Qed.

Lemma without_underscores_sub_word (n : nat) :
  ∀ (s : string) (in_run : bool),
    (String.length s ≤ n)%nat →
    without_underscores (Base.sub_word in_run s) = without_underscores s.
Proof.
  induction n as [|n IH]; intros s in_run Hn.
  - destruct s; [done | cbn in Hn; lia].
  - destruct s as [|c s]; [done|]. cbn [String.length] in Hn.
    cbn [Base.sub_word].
    destruct (in_run && Base.is_lower c).
    { rewrite !(without_underscores_cons c). by rewrite IH by lia. }
    destruct s as [|u [|l r]].
    + done.
    + rewrite !(without_underscores_cons c).
      by rewrite (IH (String u EmptyString)) by lia.
    + destruct (Base.not_newline c && Base.is_upper u && Base.is_lower l).
      * rewrite !(without_underscores_cons c).
        rewrite (without_underscores_cons "_").
        rewrite !(without_underscores_cons u).
        change (Ascii.eqb "_" "_") with true. cbv iota.
        by rewrite (IH (String l r)) by (cbn [String.length] in *; lia).
      * rewrite !(without_underscores_cons c).
        by rewrite (IH (String u (String l r))) by lia.
Qed.

Lemma sub_hump_two (a u : ascii) (r : string) :
  Base.sub_hump (String a (String u r))
  = if (Base.is_lower a || Base.is_digit a) && Base.is_upper u
    then String a (String "_" (String u (Base.sub_hump r)))
    else String a (Base.sub_hump (String u r)).
Proof. reflexivity. Qed.

Lemma without_underscores_sub_hump (n : nat) :
  ∀ s : string,
    (String.length s ≤ n)%nat →
    without_underscores (Base.sub_hump s) = without_underscores s.
Proof.
  induction n as [|n IH]; intros s Hn.
  - destruct s; [done | cbn in Hn; lia].
  - destruct s as [|a [|u r]]; [done|done|]. cbn [String.length] in Hn.
    rewrite sub_hump_two.
    destruct ((Base.is_lower a || Base.is_digit a) && Base.is_upper u).
    + rewrite !(without_underscores_cons a).
      rewrite (without_underscores_cons "_").
      rewrite !(without_underscores_cons u).
      change (Ascii.eqb "_" "_") with true. cbv iota.
      by rewrite (IH r) by lia.
    + rewrite !(without_underscores_cons a).
      by rewrite (IH (String u r)) by (cbn [String.length]; lia).
Qed.

(** X15. A table name is the class name in small letters with
    underscores put in: with the underscores taken out again, both are
    the same. *)
Theorem tablename_only_adds_underscores (class_name : string) :
  without_underscores (Base.tablename class_name)
  = without_underscores (Py.lower class_name).
Proof.
  unfold Base.tablename. cbv zeta.
  rewrite !without_underscores_lower.
  rewrite (without_underscores_sub_hump _ _ (le_n _)).
  by rewrite (without_underscores_sub_word _ _ _ (le_n _)).
Qed.

Lemma sub_word_no_capital (n : nat) :
  ∀ (s : string) (in_run : bool),
    (String.length s ≤ n)%nat → no_capital s = true →
    Base.sub_word in_run s = s.
Proof.
  induction n as [|n IH]; intros s in_run Hn Hs.
  - destruct s; [done | cbn in Hn; lia].
  - destruct s as [|c s]; [done|]. cbn [String.length no_capital] in *.
    apply andb_prop in Hs as [Hc Hs]. cbn [Base.sub_word].
    destruct (in_run && Base.is_lower c); [by rewrite IH by (done || lia)|].
    destruct s as [|u [|l r]].
    + done.
    + by rewrite (IH (String u EmptyString)) by (done || lia).
    + cbn [no_capital] in Hs. apply andb_prop in Hs as [Hu Hs].
      apply negb_true_iff in Hu. rewrite Hu, andb_false_r. cbn [andb].
      rewrite (IH (String u (String l r))); [done|lia|].
      cbn [no_capital]. by rewrite Hu, Hs.
Qed.

Lemma sub_hump_no_capital (n : nat) :
  ∀ s : string,
    (String.length s ≤ n)%nat → no_capital s = true → Base.sub_hump s = s.
Proof.
  induction n as [|n IH]; intros s Hn Hs.
  - destruct s; [done | cbn in Hn; lia].
  - destruct s as [|a [|u r]]; [done|done|].
    cbn [String.length no_capital] in *.
    apply andb_prop in Hs as [Ha Hs]. pose proof Hs as Hs'.
    apply andb_prop in Hs as [Hu Hs]. apply negb_true_iff in Hu.
    rewrite sub_hump_two, Hu, andb_false_r.
    by rewrite (IH (String u r)) by (done || cbn [String.length]; lia).
Qed.

(** X16. A class name without a capital letter gets no underscore: its
    table name is the name itself, in small letters. *)
Theorem tablename_without_capitals (class_name : string) :
  no_capital class_name = true →
  Base.tablename class_name = Py.lower class_name.
Proof.
  intros Hs. unfold Base.tablename. cbv zeta.
  rewrite (sub_word_no_capital _ _ _ (le_n _) Hs).
  by rewrite (sub_hump_no_capital _ _ (le_n _) Hs).
Qed.

(** The classes of [app/wordseer/models.py] and
    [app/models/parseproducts.py], and the tables their foreign keys
    name. *)
Example tablenames_of_the_models :
  map Base.tablename ["SequenceSet"; "SentenceSet"; "DocumentSet";
                      "CachedSentences"; "ParseProducts"; "User";
                      "ParsedParagraph"]
  = ["sequence_set"; "sentence_set"; "document_set"; "cached_sentences";
     "parse_products"; "user"; "parsed_paragraph"].
Proof. reflexivity. Qed.

Section FindOrCreateFacts.

Context {kw row : Type}.
Variable matches : kw → row → bool.
Variable make : kw → list row → row.

(** X17. When a row built from keyword arguments satisfies them,
    [find_or_create] asked twice with the same arguments answers the
    same both times, and the second call leaves the table as the first
    left it: it adds a row at most once. *)
Theorem find_or_create_twice (kwargs : kw) (table : list row) :
  matches kwargs (make kwargs table) = true →
  let first := Base.find_or_create matches make kwargs table in
  Base.find_or_create matches make kwargs first.1 = first.
Proof.
  intros Hmake first. unfold first, Base.find_or_create.
  destruct (List.filter (matches kwargs) table) as [|x [|y l]] eqn:E;
    cbn [fst].
  - rewrite List.filter_app, E. cbn [List.filter app]. by rewrite Hmake.
  - by rewrite E.
  - by rewrite E.
Qed.

End FindOrCreateFacts.

(** X18. [__repr__] shows no attribute whose name starts with an
    underscore: for items with non-empty names, the result is that of the
    public items alone. *)
Theorem repr_hides_private (class_name : string)
    (items : list (string * string)) :
  Forall (fun item => item.1 ≠ EmptyString) items →
  Base.repr class_name items
  = Base.repr class_name (List.filter public items).
Proof.
  intros Hall. unfold Base.repr. f_equal.
  generalize ("<" +:+ class_name +:+ ":") as acc.
  induction Hall as [|[k v] items Hk _ IH]; intros acc; [done|].
  cbn [List.filter foldM]. unfold public at 1. cbn [fst] in *.
  destruct k as [|c k]; [done|]. cbn [Py.startswith Py.first_char].
  unfold mbind at 1. unfold result_bind at 1.
  destruct (Ascii.eqb c "_") eqn:Ec; cbn [negb].
  - apply IH.
  - cbn [foldM Py.first_char]. unfold mbind at 2. unfold result_bind at 2.
    rewrite Ec. cbn [negb]. apply IH.
Qed.

(** *** The further properties on the examples *)

Lemma metadata_carries_witness :
  Forall (fun m => specification m ∈ [rule_attr]
                   ∧ getitem "propertyName" (propertyName (specification m))
                     = Ok (property_name m))
         [mkMetadata "x" (Some "ident") rule_attr;
          mkMetadata "y" (Some "ident") rule_attr;
          mkMetadata "z" (Some "ident") rule_attr].
Proof.
  exact (metadata_carries_its_rule [rule_attr] two_ids _ eq_refl).
Defined.

Lemma attribute_values_witness :
  ∃ vals, get_xpath_attribute "a" "id" two_ids = Ok vals ∧ length vals = 3%nat.
Proof.
  apply (attribute_values_count "a" "id" two_ids (tag_children two_ids)
           ["x y"; "z"]); [by vm_compute | reflexivity | repeat constructor].
Defined.

Lemma untokenized_witness :
  ∃ s, [mkSentence ("Hello world." +:+ Py.newline) [[]]] = [s]
       ∧ length (s_metadata s) = 1%nat.
Proof.
  apply (untokenized_is_one_sentence line_tokenizer (rule_leaf "sentence" ["p"])
           hello_body [NodeList (tag_children hello_body)]);
    [repeat constructor | reflexivity].
Defined.

Lemma tokenized_witness :
  get_sentences line_tokenizer (rule_leaf "sentence" ["p"]) hello_body true
  = Ok [mkSentence "Hello world." [[]]].
Proof.
  exact (tokenized_sentences line_tokenizer (rule_leaf "sentence" ["p"])
           hello_body ("Hello world." +:+ Py.newline) [[]]
           [mkSentence "Hello world." []] eq_refl eq_refl).
Defined.

Lemma units_named_witness :
  Forall (fun u => u_name u = "doc")
         [mkUnit [] [] [mkSentence "Hello world." [[]]] "doc"].
Proof.
  exact (units_named line_tokenizer rule_with_paragraph_child hello_doc
           _ eq_refl).
Defined.

Lemma extract_without_children_witness :
  @extract Tag Tag_without_children line_tokenizer (fun _ => Ok hello_doc)
           (mkStructure "doc" [] Null Null) "hello.xml" = Ok []
  ∧ @nil Document = [].
Proof.
  split; [reflexivity|].
  exact (@extract_without_children Tag Tag_without_children line_tokenizer
           (fun _ => Ok hello_doc) (mkStructure "doc" [] Null Null)
           "hello.xml" [] (fun _ => eq_refl) eq_refl).
Defined.

Lemma one_unit_per_child_witness :
  length [mkUnit [] [] [mkSentence "Hello world." [[]]] "doc"] = 1%nat.
Proof.
  apply (one_unit_per_child line_tokenizer rule_with_paragraph_child hello_doc
           [[hello_body]]); [|reflexivity].
  constructor; [|constructor]. by exists (Element hello_doc).
Defined.

Lemma only_visible_witness :
  ∃ ps,
    trace (extract_record_metadata (quiet_env three_files []) "dir" "s.json"
                                   ".xml" two_done).1
    = trace two_done ++ map EExtract ps
    ∧ ps `sublist_of` ["dir/a.xml"; "dir/b.XML"; "dir/c.xml"].
Proof.
  exact (only_visible_matching_files_extracted (quiet_env three_files [])
           "dir" "s.json" ".xml" two_done three_files eq_refl).
Defined.

Lemma stage_flag_witness :
  Logger.get
    (ledger (extract_record_metadata (quiet_env three_files []) "dir"
                                     "s.json" ".xml" fresh_world).1)
    "finished_recording_text_and_metadata" = "true".
Proof.
  apply (stage_flag_tells_completion (quiet_env three_files []) "dir" "s.json"
           ".xml" fresh_world three_files eq_refl eq_refl).
  vm_compute. repeat constructor; discriminate.
Defined.

Lemma second_parse_witness :
  let env := quiet_env [] [1; 2; 3; 5]%Z in
  let w := mkWorld {[ "latest_parsed_document_id" := "2" ]} [] in
  let w1 := (parse_documents env w).1 in
  parse_documents env w1 = (mkWorld (ledger w1) (trace w1 ++ [ECount]), Ok tt).
Proof.
  intros env w.
  apply (second_parse_run_parses_nothing env w 2 eq_refl eq_refl
           (fun _ _ _ => eq_refl)).
  cbn. repeat constructor; lia.
Defined.

Lemma later_flags_witness :
  process (quiet_env three_files [1; 2]%Z) "dir" "s.json" ".xml" false
          counts_done
  = (counts_done, Ok tt).
Proof.
  apply (later_flags_do_not_matter (quiet_env three_files [1; 2]%Z)
           "dir" "s.json" ".xml" counts_done); reflexivity.
Defined.

Lemma word_counts_witness :
  let run := process (quiet_env three_files [1; 2]%Z) "dir" "s.json" ".xml"
                     true fresh_world in
  Py.contains "true" (Py.lower (Logger.get (ledger run.1) "word_counts_done"))
  = true.
Proof.
  intros run.
  apply (word_counts_marked_done (quiet_env three_files [1; 2]%Z)
           "dir" "s.json" ".xml" true fresh_world run.1).
  vm_compute. reflexivity.
Defined.

Lemma parser_off_witness :
  ∃ evs,
    trace (process (parsing_off_env three_files [1; 2]%Z) "dir" "s.json"
                   ".xml" true fresh_world).1
    = trace fresh_world ++ evs
    ∧ Forall (fun e => e = EReset ∨ ∃ p, e = EExtract p) evs.
Proof.
  exact (parser_not_called_when_switched_off
           (parsing_off_env three_files [1; 2]%Z) "dir" "s.json" ".xml" true
           fresh_world eq_refl eq_refl).
Defined.

Lemma tablename_witness : Base.tablename "user_2" = "user_2".
Proof. exact (tablename_without_capitals "user_2" eq_refl). Defined.

Lemma find_or_create_witness :
  let first := Base.find_or_create name_is new_named "b" [("a", 1%nat)] in
  first = ([("a", 1%nat); ("b", 2%nat)], Some ("b", 2%nat))
  ∧ Base.find_or_create name_is new_named "b" first.1 = first.
Proof.
  intros first. split; [reflexivity|].
  exact (find_or_create_twice name_is new_named "b" [("a", 1%nat)] eq_refl).
Defined.

Lemma repr_witness :
  Base.repr "Unit" [("id", "3"); ("_sa_instance_state", "s"); ("name", "doc")]
  = Base.repr "Unit" [("id", "3"); ("name", "doc")].
Proof.
  apply (repr_hides_private "Unit"
           [("id", "3"); ("_sa_instance_state", "s"); ("name", "doc")]).
  repeat constructor; discriminate.
Defined.
